(** * web-operator: the Web reconciler

    A shallow embedding of [internal/controller/web_controller.go] and of
    the resource types of [api/v1alpha1/web_types.go].

    The Go packages the controller imports appear as modules of the same
    name ([metav1], [corev1], [appsv1], [v1alpha1], [errors], [client],
    [ctrl]); a Go struct [T] of package [p] is the record [p.T.t], so that
    its fields keep their Go names.  The controller itself is the module
    [controller].

    [Reconcile] talks to the cluster through [client.Client], a Go
    interface: here a record of operations over an arbitrary type of
    cluster states.  Every call to a collaborator ([Get], [Create],
    [SetControllerReference], the logger) is recorded, in order and with
    the error it returned, in a trace; statements about what a pass
    attempts, and in which order, are statements about that trace. *)

From stdpp Require Import base option list strings gmap.

Open Scope string_scope.
Open Scope list_scope.

(** ** Go errors *)

(** [k8s.io/apimachinery/pkg/api/errors]: an API failure carries a
    [StatusReason]; any other Go error is an opaque message. *)
Module errors.

Inductive StatusReason :=
| StatusReasonUnknown
| StatusReasonNotFound
| StatusReasonAlreadyExists
| StatusReasonForbidden
| StatusReasonInvalid
| StatusReasonTimeout
| StatusReasonServerTimeout
| StatusReasonInternalError
| StatusReasonServiceUnavailable.

Inductive value :=
| StatusError (reason : StatusReason) (message : string)
| errorString (message : string).

(** Go's [error] is an interface value and may be [nil]. *)
Definition error := option value.
Definition nil : error := None.

(** Go's [err != nil]. *)
Definition notnil (err : error) : bool :=
  match err with
  | Some _ => true
  | None => false
  end.

Definition ReasonForError (err : error) : StatusReason :=
  match err with
  | Some (StatusError reason _) => reason
  | _ => StatusReasonUnknown
  end.

Definition IsNotFound (err : error) : bool :=
  match ReasonForError err with
  | StatusReasonNotFound => true
  | _ => false
  end.

Definition IsAlreadyExists (err : error) : bool :=
  match ReasonForError err with
  | StatusReasonAlreadyExists => true
  | _ => false
  end.

Definition NewNotFound (name : string) : error :=
  Some (StatusError StatusReasonNotFound (name +:+ " not found")).

Definition NewAlreadyExists (name : string) : error :=
  Some (StatusError StatusReasonAlreadyExists (name +:+ " already exists")).

#[global] Instance StatusReason_eq_dec : EqDecision StatusReason.
Proof. solve_decision. Defined.

#[global] Instance value_eq_dec : EqDecision value.
Proof. solve_decision. Defined.

End errors.

Abbreviation error := errors.error.

(** ** apimachinery: object metadata *)

Module schema.

Module GroupVersion.
Record t := mk { Group : string; Version : string }.
End GroupVersion.

Module GroupVersionKind.
Record t := mk { Group : string; Version : string; Kind : string }.
Definition GroupVersion (gvk : t) : GroupVersion.t :=
  GroupVersion.mk (Group gvk) (Version gvk).
Definition Empty (gvk : t) : bool :=
  bool_decide (Group gvk = "" ∧ Version gvk = "" ∧ Kind gvk = "").
End GroupVersionKind.

#[global] Instance GroupVersion_eq_dec : EqDecision GroupVersion.t.
Proof. solve_decision. Defined.

#[global] Instance GroupVersionKind_eq_dec : EqDecision GroupVersionKind.t.
Proof. solve_decision. Defined.

End schema.

Module metav1.

(** [TypeMeta] and [OwnerReference] hold their [APIVersion] parsed into
    group and version instead of the string ["group/version"]. *)
Module TypeMeta.
Record t := mk { Kind : string; APIVersion : schema.GroupVersion.t }.
Definition zero : t := mk "" (schema.GroupVersion.mk "" "").
End TypeMeta.

Module OwnerReference.
Record t := mk {
  APIVersion : schema.GroupVersion.t;
  Kind : string;
  Name : string;
  UID : string;
  Controller : option bool;
  BlockOwnerDeletion : option bool;
}.
End OwnerReference.

Module ObjectMeta.
Record t := mk {
  Name : string;
  Namespace : string;
  UID : string;
  ResourceVersion : string;
  Labels : gmap string string;
  OwnerReferences : list OwnerReference.t;
}.
Definition zero : t := mk "" "" "" "" ∅ [].
Definition SetOwnerReferences (refs : list OwnerReference.t) (m : t) : t :=
  mk (Name m) (Namespace m) (UID m) (ResourceVersion m) (Labels m) refs.
Definition SetResourceVersion (v : string) (m : t) : t :=
  mk (Name m) (Namespace m) (UID m) v (Labels m) (OwnerReferences m).
End ObjectMeta.

Module LabelSelector.
Record t := mk { MatchLabels : gmap string string }.
End LabelSelector.

Module Condition.
Record t := mk {
  Type_ : string;
  Status : string;
  Reason : string;
  Message : string;
}.
End Condition.

#[global] Instance TypeMeta_eq_dec : EqDecision TypeMeta.t.
Proof. solve_decision. Defined.

#[global] Instance OwnerReference_eq_dec : EqDecision OwnerReference.t.
Proof. solve_decision. Defined.

#[global] Instance ObjectMeta_eq_dec : EqDecision ObjectMeta.t.
Proof. solve_decision. Defined.

(** [metav1.GetControllerOf]: the first owner reference flagged as the
    controller. *)
Fixpoint GetControllerOf (refs : list OwnerReference.t) : option OwnerReference.t :=
  match refs with
  | [] => None
  | ref :: rest =>
      match OwnerReference.Controller ref with
      | Some true => Some ref
      | _ => GetControllerOf rest
      end
  end.

End metav1.

(** [types.NamespacedName], which is also [client.ObjectKey]. *)
Module NamespacedName.
Record t := mk { Namespace : string; Name : string }.

#[global] Instance eq_dec : EqDecision t.
Proof. solve_decision. Defined.

#[global] Instance countable : Countable t.
Proof.
  refine (inj_countable' (λ k, (Namespace k, Name k)) (λ p, mk p.1 p.2) _).
  by intros [].
Defined.
End NamespacedName.

(** ** core/v1 and apps/v1: the two dependents

    Of [ConfigMap], [Deployment] and the pod template only the fields are
    kept that the controller sets, or that say whether a replica count or
    a container port was set; every other field of the Go structs stays at
    its zero value in every object the controller builds. *)
Module corev1.

Module ConfigMap.
Record t := mk {
  ObjectMeta : metav1.ObjectMeta.t;
  Data : gmap string string;
}.
Definition zero : t := mk metav1.ObjectMeta.zero ∅.
(** Promoted fields of the embedded [metav1.ObjectMeta]. *)
Definition Name (c : t) : string := metav1.ObjectMeta.Name (ObjectMeta c).
Definition Namespace (c : t) : string := metav1.ObjectMeta.Namespace (ObjectMeta c).
End ConfigMap.

Module LocalObjectReference.
Record t := mk { Name : string }.
End LocalObjectReference.

Module ConfigMapVolumeSource.
Record t := mk { LocalObjectReference : LocalObjectReference.t }.
End ConfigMapVolumeSource.

Module VolumeSource.
Record t := mk { ConfigMap : option ConfigMapVolumeSource.t }.
End VolumeSource.

Module Volume.
Record t := mk { Name : string; VolumeSource : VolumeSource.t }.
End Volume.

Module VolumeMount.
Record t := mk { Name : string; MountPath : string }.
End VolumeMount.

Module ContainerPort.
Record t := mk { Name : string; ContainerPort : Z; Protocol : string }.
End ContainerPort.

Module Container.
Record t := mk {
  Name : string;
  Image : string;
  Ports : list ContainerPort.t;
  VolumeMounts : list VolumeMount.t;
}.
End Container.

Module PodSpec.
Record t := mk {
  Volumes : list Volume.t;
  Containers : list Container.t;
}.
Definition SetVolumes (vs : list Volume.t) (s : t) : t := mk vs (Containers s).
End PodSpec.

Module PodTemplateSpec.
Record t := mk {
  ObjectMeta : metav1.ObjectMeta.t;
  Spec : PodSpec.t;
}.
End PodTemplateSpec.

End corev1.

Module appsv1.

Module DeploymentSpec.
Record t := mk {
  Replicas : option Z;
  Selector : option metav1.LabelSelector.t;
  Template : corev1.PodTemplateSpec.t;
}.
End DeploymentSpec.

Module Deployment.
Record t := mk {
  ObjectMeta : metav1.ObjectMeta.t;
  Spec : DeploymentSpec.t;
}.
Definition zero : t :=
  mk metav1.ObjectMeta.zero
     (DeploymentSpec.mk None None
        (corev1.PodTemplateSpec.mk metav1.ObjectMeta.zero (corev1.PodSpec.mk [] []))).
(** Promoted fields of the embedded [metav1.ObjectMeta]. *)
Definition Name (d : t) : string := metav1.ObjectMeta.Name (ObjectMeta d).
Definition Namespace (d : t) : string := metav1.ObjectMeta.Namespace (ObjectMeta d).
(** The assignment [dep.Spec.Template.Spec.Volumes = vs]. *)
Definition SetVolumes (vs : list corev1.Volume.t) (d : t) : t :=
  mk (ObjectMeta d)
     (DeploymentSpec.mk
        (DeploymentSpec.Replicas (Spec d))
        (DeploymentSpec.Selector (Spec d))
        (corev1.PodTemplateSpec.mk
           (corev1.PodTemplateSpec.ObjectMeta (DeploymentSpec.Template (Spec d)))
           (corev1.PodSpec.SetVolumes vs
              (corev1.PodTemplateSpec.Spec (DeploymentSpec.Template (Spec d)))))).
End Deployment.

End appsv1.

(** ** api/v1alpha1: the Web resource *)
Module v1alpha1.

(** [WebSpec]: the two [int32] fields [Size] and [ContainerPort] are
    those [web_types.go] declares. *)
Module WebSpec.
(** Modelled from the spec: the declaration of the fields [Image] and
    [HtmlContent], which [Reconcile] reads as [web.Spec.Image] and
    [web.Spec.HtmlContent] and which [web_types.go] does not list; the
    spec's data model gives a Web "a container image reference, and inline
    static content", both strings. *)
Record t := mk {
  Size : Z;
  ContainerPort : Z;
  Image : string;
  HtmlContent : string;
}.
Definition zero : t := mk 0 0 "" "".
End WebSpec.

Module WebStatus.
Record t := mk { Conditions : list metav1.Condition.t }.
Definition zero : t := mk [].
End WebStatus.

Module Web.
Record t := mk {
  TypeMeta : metav1.TypeMeta.t;
  ObjectMeta : metav1.ObjectMeta.t;
  Spec : WebSpec.t;
  Status : WebStatus.t;
}.
Definition zero : t :=
  mk metav1.TypeMeta.zero metav1.ObjectMeta.zero WebSpec.zero WebStatus.zero.
(** Promoted fields of the embedded [metav1.ObjectMeta]. *)
Definition Name (w : t) : string := metav1.ObjectMeta.Name (ObjectMeta w).
Definition Namespace (w : t) : string := metav1.ObjectMeta.Namespace (ObjectMeta w).
End Web.

End v1alpha1.

(** ** controller-runtime: client, scheme, result *)

Module runtime.
(** [runtime.Scheme], as far as the controller needs it: the kinds
    registered for the Go type [v1alpha1.Web]. *)
Module Scheme.
Record t := mk { ObjectKinds_Web : list schema.GroupVersionKind.t }.
End Scheme.
End runtime.

Module client.

Abbreviation ObjectKey := NamespacedName.t.

(** The methods of [client.Client] that the controller calls, one per
    object type.  Go passes the object by pointer and gets an [error]
    back: an operation takes the object and the cluster, and returns the
    object as the call left it, the error, and the cluster afterwards. *)
Record Client (World : Type) := {
  Get_Web : ObjectKey → v1alpha1.Web.t → World → (v1alpha1.Web.t * error) * World;
  Get_ConfigMap : ObjectKey → corev1.ConfigMap.t → World → (corev1.ConfigMap.t * error) * World;
  Get_Deployment : ObjectKey → appsv1.Deployment.t → World → (appsv1.Deployment.t * error) * World;
  Create_ConfigMap : corev1.ConfigMap.t → World → (corev1.ConfigMap.t * error) * World;
  Create_Deployment : appsv1.Deployment.t → World → (appsv1.Deployment.t * error) * World;
}.
Arguments Get_Web {World}.
Arguments Get_ConfigMap {World}.
Arguments Get_Deployment {World}.
Arguments Create_ConfigMap {World}.
Arguments Create_Deployment {World}.

Definition IgnoreNotFound (err : error) : error :=
  if errors.IsNotFound err then errors.nil else err.

End client.

Module ctrl.

Module Result.
Record t := mk { Requeue : bool; RequeueAfter : Z }.
Definition zero : t := mk false 0.
End Result.

Module Request.
Record t := mk { NamespacedName : NamespacedName.t }.
End Request.

(** The type of [ctrl.SetControllerReference] with a Web as the owner:
    the controlled object's metadata goes in, and comes back as the call
    left it together with the error. *)
Definition SetControllerReference_t : Type :=
  v1alpha1.Web.t → metav1.ObjectMeta.t → runtime.Scheme.t → metav1.ObjectMeta.t * error.

End ctrl.

(** ** internal/controller: the reconciler *)
Module controller.

Inductive Kind := KWeb | KConfigMap | KDeployment.

Inductive Level := LevelInfo | LevelError.

(** One entry per call the reconciler makes, with the error the call
    returned. *)
Inductive Event :=
| EvGet (kind : Kind) (key : client.ObjectKey) (err : error)
| EvSetControllerReference (controlled : Kind) (err : error)
| EvCreate_ConfigMap (obj : corev1.ConfigMap.t) (err : error)
| EvCreate_Deployment (obj : appsv1.Deployment.t) (err : error)
| EvLog (level : Level) (msg : string).

Definition Trace := list Event.

(** What [Reconcile] returns: [(ctrl.Result, error)]. *)
Definition Outcome : Type := ctrl.Result.t * error.

Section Reconciler.

Variable World : Type.
Variable SetControllerReference : ctrl.SetControllerReference_t.

(** [WebReconciler] embeds the client and holds the scheme. *)
Record WebReconciler := {
  Client : client.Client World;
  Scheme : runtime.Scheme.t;
}.

(** One pass, seen from outside: what was returned, the cluster the pass
    left, and the calls it made. *)
Record Pass := {
  outcome : Outcome;
  world : World;
  trace : Trace;
}.

(** A computation runs on the cluster and the trace so far; it either
    leaves the function with an outcome (Go's [return]) or goes on with a
    value. *)
Definition M (A : Type) : Type := World * Trace → (Outcome + A) * (World * Trace).

Definition ret {A} (a : A) : M A := λ s, (inr a, s).

Definition bind {A B} (m : M A) (f : A → M B) : M B :=
  λ s, match m s with
       | (inl out, s') => (inl out, s')
       | (inr a, s') => f a s'
       end.

Definition return_ {A} (out : Outcome) : M A := λ s, (inl out, s).

Definition call {A} (op : World → (A * error) * World) (ev : error → Event) : M (A * error) :=
  λ s, let '(res, w') := op s.1 in (inr res, (w', s.2 ++ [ev res.2])).

Definition emit (ev : Event) : M unit := λ s, (inr tt, (s.1, s.2 ++ [ev])).

Definition exec (m : M Outcome) (w : World) : Pass :=
  match m (w, []) with
  | (inl out, (w', t)) => {| outcome := out; world := w'; trace := t |}
  | (inr out, (w', t)) => {| outcome := out; world := w'; trace := t |}
  end.

Notation "'let*' pat ':=' m 'in' k" := (bind m (λ pat, k))
  (at level 10, pat pattern, m at level 100, k at level 200, only parsing).
Notation "m ;; k" := (bind m (λ _, k))
  (at level 100, right associativity, only parsing).

(** The collaborators' calls, each leaving its entry in the trace. *)
Definition Get_Web (r : WebReconciler) (key : client.ObjectKey) (obj : v1alpha1.Web.t)
  : M (v1alpha1.Web.t * error) :=
  call (client.Get_Web (Client r) key obj) (EvGet KWeb key).

Definition Get_ConfigMap (r : WebReconciler) (key : client.ObjectKey) (obj : corev1.ConfigMap.t)
  : M (corev1.ConfigMap.t * error) :=
  call (client.Get_ConfigMap (Client r) key obj) (EvGet KConfigMap key).

Definition Get_Deployment (r : WebReconciler) (key : client.ObjectKey) (obj : appsv1.Deployment.t)
  : M (appsv1.Deployment.t * error) :=
  call (client.Get_Deployment (Client r) key obj) (EvGet KDeployment key).

Definition Create_ConfigMap (r : WebReconciler) (obj : corev1.ConfigMap.t)
  : M (corev1.ConfigMap.t * error) :=
  call (client.Create_ConfigMap (Client r) obj) (EvCreate_ConfigMap obj).

Definition Create_Deployment (r : WebReconciler) (obj : appsv1.Deployment.t)
  : M (appsv1.Deployment.t * error) :=
  call (client.Create_Deployment (Client r) obj) (EvCreate_Deployment obj).

Definition SetControllerReference_ConfigMap
    (owner : v1alpha1.Web.t) (controlled : corev1.ConfigMap.t) (scheme : runtime.Scheme.t)
  : M (corev1.ConfigMap.t * error) :=
  call (λ w, (let '(meta, err) :=
                SetControllerReference owner (corev1.ConfigMap.ObjectMeta controlled) scheme in
              (corev1.ConfigMap.mk meta (corev1.ConfigMap.Data controlled), err), w))
       (EvSetControllerReference KConfigMap).

Definition SetControllerReference_Deployment
    (owner : v1alpha1.Web.t) (controlled : appsv1.Deployment.t) (scheme : runtime.Scheme.t)
  : M (appsv1.Deployment.t * error) :=
  call (λ w, (let '(meta, err) :=
                SetControllerReference owner (appsv1.Deployment.ObjectMeta controlled) scheme in
              (appsv1.Deployment.mk meta (appsv1.Deployment.Spec controlled), err), w))
       (EvSetControllerReference KDeployment).

Definition log_Info (msg : string) : M unit := emit (EvLog LevelInfo msg).
Definition log_Error (err : error) (msg : string) : M unit := emit (EvLog LevelError msg).

(** [Reconcile], statement by statement. *)
Definition Reconcile (r : WebReconciler) (req : ctrl.Request.t) : M Outcome :=
  let web := v1alpha1.Web.zero in
  let* (web, err) := Get_Web r (ctrl.Request.NamespacedName req) web in
  (if errors.notnil err then
     if errors.IsNotFound err then
       log_Info "Web resource not found. Ignoring since object must be deleted";;
       return_ (ctrl.Result.zero, errors.nil)
     else
       log_Error err "unable to fetch Web";;
       return_ (ctrl.Result.zero, client.IgnoreNotFound err)
   else ret tt);;

  let cm := corev1.ConfigMap.zero in
  let* (cm, err_cm) := Get_ConfigMap r
      {| NamespacedName.Name := v1alpha1.Web.Name web +:+ "-cm";
         NamespacedName.Namespace := v1alpha1.Web.Namespace web |} cm in
  let* cm := (if errors.notnil err_cm && errors.IsNotFound err_cm then
           let cm :=
             {| corev1.ConfigMap.ObjectMeta :=
                  {| metav1.ObjectMeta.Name := v1alpha1.Web.Name web +:+ "-cm";
                     metav1.ObjectMeta.Namespace := v1alpha1.Web.Namespace web;
                     metav1.ObjectMeta.UID := "";
                     metav1.ObjectMeta.ResourceVersion := "";
                     metav1.ObjectMeta.Labels := ∅;
                     metav1.ObjectMeta.OwnerReferences := [] |};
                corev1.ConfigMap.Data :=
                  {[ "index.html" := v1alpha1.WebSpec.HtmlContent (v1alpha1.Web.Spec web) ]} |} in
           let* (cm, err) := SetControllerReference_ConfigMap web cm (Scheme r) in
           (if errors.notnil err then
              log_Error err "unable to set owner reference on ConfigMap";;
              return_ (ctrl.Result.zero, err)
            else ret tt);;
           let* (cm, err) := Create_ConfigMap r cm in
           (if errors.notnil err && negb (errors.IsAlreadyExists err) then
              log_Error err "unable to create ConfigMap for Web";;
              return_ (ctrl.Result.zero, err)
            else ret tt);;
           log_Info "ConfigMap has been created";;
           ret cm
         else if errors.notnil err_cm then
           log_Error err_cm "unable to get ConfigMap";;
           return_ (ctrl.Result.zero, err_cm)
         else ret cm) in

  let dep := appsv1.Deployment.zero in
  let* (dep, err_dep) := Get_Deployment r
      {| NamespacedName.Name := v1alpha1.Web.Name web +:+ "deployment";
         NamespacedName.Namespace := v1alpha1.Web.Namespace web |} dep in
  (if errors.notnil err_dep && errors.IsNotFound err_dep then
     let dep :=
       {| appsv1.Deployment.ObjectMeta :=
            {| metav1.ObjectMeta.Name := v1alpha1.Web.Name web +:+ "deployment";
               metav1.ObjectMeta.Namespace := v1alpha1.Web.Namespace web;
               metav1.ObjectMeta.UID := "";
               metav1.ObjectMeta.ResourceVersion := "";
               metav1.ObjectMeta.Labels := ∅;
               metav1.ObjectMeta.OwnerReferences := [] |};
          appsv1.Deployment.Spec :=
            {| appsv1.DeploymentSpec.Replicas := None;
               appsv1.DeploymentSpec.Selector :=
                 Some {| metav1.LabelSelector.MatchLabels := {[ "app" := v1alpha1.Web.Name web ]} |};
               appsv1.DeploymentSpec.Template :=
                 {| corev1.PodTemplateSpec.ObjectMeta :=
                      {| metav1.ObjectMeta.Name := "";
                         metav1.ObjectMeta.Namespace := "";
                         metav1.ObjectMeta.UID := "";
                         metav1.ObjectMeta.ResourceVersion := "";
                         metav1.ObjectMeta.Labels := {[ "app" := v1alpha1.Web.Name web ]};
                         metav1.ObjectMeta.OwnerReferences := [] |};
                    corev1.PodTemplateSpec.Spec :=
                      {| corev1.PodSpec.Volumes := [];
                         corev1.PodSpec.Containers :=
                           [ {| corev1.Container.Image :=
                                  v1alpha1.WebSpec.Image (v1alpha1.Web.Spec web);
                                corev1.Container.Name := "web-container";
                                corev1.Container.Ports := [];
                                corev1.Container.VolumeMounts :=
                                  [ {| corev1.VolumeMount.MountPath := "/app";
                                       corev1.VolumeMount.Name := "html" |} ] |} ] |} |} |} |} in
     let dep :=
       appsv1.Deployment.SetVolumes
         [ {| corev1.Volume.Name := "html";
              corev1.Volume.VolumeSource :=
                {| corev1.VolumeSource.ConfigMap :=
                     Some {| corev1.ConfigMapVolumeSource.LocalObjectReference :=
                               {| corev1.LocalObjectReference.Name := corev1.ConfigMap.Name cm |} |} |} |} ]
         dep in
     let* (dep, err) := SetControllerReference_Deployment web dep (Scheme r) in
     (if errors.notnil err then
        log_Error err "unable to set owner reference on Deployment";;
        return_ (ctrl.Result.zero, err)
      else ret tt);;
     let* (dep, err) := Create_Deployment r dep in
     (if errors.notnil err && negb (errors.IsAlreadyExists err) then
        log_Error err "unable to create Deployment for Web";;
        return_ (ctrl.Result.zero, err)
      else ret tt);;
     log_Info "Deployment has been created"
   else if errors.notnil err_dep then
     log_Error err_dep "unable to get Deployment";;
     return_ (ctrl.Result.zero, err_dep)
   else ret tt);;

  return_ (ctrl.Result.zero, errors.nil).

End Reconciler.

Arguments Client {World}.
Arguments Scheme {World}.
Arguments ret {World A}.
Arguments bind {World A B}.
Arguments return_ {World A}.
Arguments call {World A}.
Arguments emit {World}.
Arguments log_Info {World}.
Arguments log_Error {World}.
Arguments Get_Web {World}.
Arguments Get_ConfigMap {World}.
Arguments Get_Deployment {World}.
Arguments Create_ConfigMap {World}.
Arguments Create_Deployment {World}.
Arguments SetControllerReference_ConfigMap {World}.
Arguments SetControllerReference_Deployment {World}.
Arguments exec {World}.
Arguments outcome {World}.
Arguments world {World}.
Arguments trace {World}.
Arguments Reconcile {World}.

(** *** Reading a trace *)

(** The requests that change the cluster. *)
Definition is_write (ev : Event) : bool :=
  match ev with
  | EvCreate_ConfigMap _ _ | EvCreate_Deployment _ _ => true
  | _ => false
  end.

Definition writes (t : Trace) : Trace := List.filter is_write t.

(** The steps of a pass: every call but the logger's. *)
Definition is_step (ev : Event) : bool :=
  match ev with
  | EvLog _ _ => false
  | _ => true
  end.

Definition steps (t : Trace) : Trace := List.filter is_step t.

(** The kind of object a step is about. *)
Definition kind_of (ev : Event) : option Kind :=
  match ev with
  | EvGet kind _ _ => Some kind
  | EvSetControllerReference kind _ => Some kind
  | EvCreate_ConfigMap _ _ => Some KConfigMap
  | EvCreate_Deployment _ _ => Some KDeployment
  | EvLog _ _ => None
  end.

Definition is_create_of (kind : Kind) (ev : Event) : bool :=
  match ev, kind with
  | EvCreate_ConfigMap _ _, KConfigMap => true
  | EvCreate_Deployment _ _, KDeployment => true
  | _, _ => false
  end.

(** The error with which a step fails, [nil] when it does not: a fetch
    fails on any error but NotFound, a create on any error but
    AlreadyExists, setting the owner reference on any error. *)
Definition step_failure (ev : Event) : error :=
  match ev with
  | EvGet _ _ err => if errors.IsNotFound err then errors.nil else err
  | EvSetControllerReference _ err => err
  | EvCreate_ConfigMap _ err | EvCreate_Deployment _ err =>
      if errors.IsAlreadyExists err then errors.nil else err
  | EvLog _ _ => errors.nil
  end.

(** A create that was answered AlreadyExists. *)
Definition is_conflict (ev : Event) : bool :=
  match ev with
  | EvCreate_ConfigMap _ err | EvCreate_Deployment _ err => errors.IsAlreadyExists err
  | _ => false
  end.

End controller.

(** ** The collaborators, concretely

    [Reconcile] is stated over any client and any
    [SetControllerReference].  The two below are the ones the statements
    about cluster states are made on: controller-runtime's
    [SetControllerReference], and a cluster that keeps its objects in maps
    and can be told to fail requests. *)

Module controllerutil.

Definition validateOwner (owner object : metav1.ObjectMeta.t) : error :=
  let ownerNs := metav1.ObjectMeta.Namespace owner in
  if bool_decide (ownerNs ≠ "") then
    let objNs := metav1.ObjectMeta.Namespace object in
    if bool_decide (objNs = "") then
      Some (errors.errorString
              "cluster-scoped resource must not have a namespace-scoped owner")
    else if bool_decide (ownerNs ≠ objNs) then
      Some (errors.errorString "cross-namespace owner references are disallowed")
    else errors.nil
  else errors.nil.

(** [apiutil.GVKForObject] at a Web: the one kind the scheme has for the
    type, or among several the one the object itself names. *)
Definition GVKForObject (obj : v1alpha1.Web.t) (scheme : runtime.Scheme.t)
  : schema.GroupVersionKind.t * error :=
  let none := schema.GroupVersionKind.mk "" "" "" in
  match runtime.Scheme.ObjectKinds_Web scheme with
  | [] =>
      (none, Some (errors.errorString
                     "no GroupVersionKind associated with Go type, was the type registered with the Scheme?"))
  | [gvk] => (gvk, errors.nil)
  | gvks =>
      let currentGVK :=
        schema.GroupVersionKind.mk
          (schema.GroupVersion.Group (metav1.TypeMeta.APIVersion (v1alpha1.Web.TypeMeta obj)))
          (schema.GroupVersion.Version (metav1.TypeMeta.APIVersion (v1alpha1.Web.TypeMeta obj)))
          (metav1.TypeMeta.Kind (v1alpha1.Web.TypeMeta obj)) in
      if negb (schema.GroupVersionKind.Empty currentGVK) && bool_decide (currentGVK ∈ gvks)
      then (currentGVK, errors.nil)
      else (none, Some (errors.errorString
                          "multiple GroupVersionKinds associated with Go type within the Scheme"))
  end.

Definition referSameObject (a b : metav1.OwnerReference.t) : bool :=
  bool_decide
    (schema.GroupVersion.Group (metav1.OwnerReference.APIVersion a)
       = schema.GroupVersion.Group (metav1.OwnerReference.APIVersion b)
     ∧ metav1.OwnerReference.Kind a = metav1.OwnerReference.Kind b
     ∧ metav1.OwnerReference.Name a = metav1.OwnerReference.Name b).

(** [upsertOwnerRef]: replace the first reference to the same object, or
    append. *)
Fixpoint upsertOwnerRef (ref : metav1.OwnerReference.t) (owners : list metav1.OwnerReference.t)
  : list metav1.OwnerReference.t :=
  match owners with
  | [] => [ref]
  | o :: rest =>
      if referSameObject o ref then ref :: rest else o :: upsertOwnerRef ref rest
  end.

(** The reference [SetControllerReference] builds for an owner of kind
    [gvk]. *)
Definition controllerRef (gvk : schema.GroupVersionKind.t) (owner : v1alpha1.Web.t)
  : metav1.OwnerReference.t :=
  {| metav1.OwnerReference.APIVersion := schema.GroupVersionKind.GroupVersion gvk;
     metav1.OwnerReference.Kind := schema.GroupVersionKind.Kind gvk;
     metav1.OwnerReference.Name := v1alpha1.Web.Name owner;
     metav1.OwnerReference.UID := metav1.ObjectMeta.UID (v1alpha1.Web.ObjectMeta owner);
     metav1.OwnerReference.BlockOwnerDeletion := Some true;
     metav1.OwnerReference.Controller := Some true |}.

Definition SetControllerReference : ctrl.SetControllerReference_t :=
  λ owner controlled scheme,
  let err := validateOwner (v1alpha1.Web.ObjectMeta owner) controlled in
  if errors.notnil err then (controlled, err) else
  let '(gvk, err) := GVKForObject owner scheme in
  if errors.notnil err then (controlled, err) else
  let ref := controllerRef gvk owner in
  match metav1.GetControllerOf (metav1.ObjectMeta.OwnerReferences controlled) with
  | Some existing =>
      if negb (referSameObject existing ref) then
        (controlled, Some (errors.errorString "Object is already owned by another controller"))
      else
        (metav1.ObjectMeta.SetOwnerReferences
           (upsertOwnerRef ref (metav1.ObjectMeta.OwnerReferences controlled)) controlled,
         errors.nil)
  | None =>
      (metav1.ObjectMeta.SetOwnerReferences
         (upsertOwnerRef ref (metav1.ObjectMeta.OwnerReferences controlled)) controlled,
       errors.nil)
  end.

End controllerutil.

(** A cluster: the stored objects of the three kinds by key, and a plan
    of failures.  Each request takes the head of the plan; a non-nil head
    is returned as the request's error and the request has no effect.
    [Get] answers NotFound exactly for a key without object; [Create]
    answers AlreadyExists exactly for a key with an object, and otherwise
    stores the object under its namespace and name, stamped with a
    resource version, and hands the stored object back. *)
Module cluster.

Record t := mk {
  webs : gmap NamespacedName.t v1alpha1.Web.t;
  configMaps : gmap NamespacedName.t corev1.ConfigMap.t;
  deployments : gmap NamespacedName.t appsv1.Deployment.t;
  faults : list error;
}.

Definition next_fault (c : t) : error * t :=
  match faults c with
  | [] => (errors.nil, c)
  | f :: rest => (f, mk (webs c) (configMaps c) (deployments c) rest)
  end.

Definition healthy (c : t) : Prop := faults c = [].

Definition lookup_or_NotFound {A} (objs : gmap NamespacedName.t A)
    (key : NamespacedName.t) (obj : A) : A * error :=
  match objs !! key with
  | Some stored => (stored, errors.nil)
  | None => (obj, errors.NewNotFound (NamespacedName.Name key))
  end.

Definition Get {A} (objs : t → gmap NamespacedName.t A)
    (key : NamespacedName.t) (obj : A) (c : t) : (A * error) * t :=
  let '(fault, c) := next_fault c in
  if errors.notnil fault then ((obj, fault), c)
  else (lookup_or_NotFound (objs c) key obj, c).

Definition stored_ConfigMap (obj : corev1.ConfigMap.t) : corev1.ConfigMap.t :=
  corev1.ConfigMap.mk
    (metav1.ObjectMeta.SetResourceVersion "1" (corev1.ConfigMap.ObjectMeta obj))
    (corev1.ConfigMap.Data obj).

Definition stored_Deployment (obj : appsv1.Deployment.t) : appsv1.Deployment.t :=
  appsv1.Deployment.mk
    (metav1.ObjectMeta.SetResourceVersion "1" (appsv1.Deployment.ObjectMeta obj))
    (appsv1.Deployment.Spec obj).

Definition Create_ConfigMap (obj : corev1.ConfigMap.t) (c : t)
  : (corev1.ConfigMap.t * error) * t :=
  let '(fault, c) := next_fault c in
  if errors.notnil fault then ((obj, fault), c) else
  let key := NamespacedName.mk (corev1.ConfigMap.Namespace obj) (corev1.ConfigMap.Name obj) in
  match configMaps c !! key with
  | Some _ => ((obj, errors.NewAlreadyExists (NamespacedName.Name key)), c)
  | None =>
      let stored := stored_ConfigMap obj in
      ((stored, errors.nil),
       mk (webs c) (<[key := stored]> (configMaps c)) (deployments c) (faults c))
  end.

Definition Create_Deployment (obj : appsv1.Deployment.t) (c : t)
  : (appsv1.Deployment.t * error) * t :=
  let '(fault, c) := next_fault c in
  if errors.notnil fault then ((obj, fault), c) else
  let key := NamespacedName.mk (appsv1.Deployment.Namespace obj) (appsv1.Deployment.Name obj) in
  match deployments c !! key with
  | Some _ => ((obj, errors.NewAlreadyExists (NamespacedName.Name key)), c)
  | None =>
      let stored := stored_Deployment obj in
      ((stored, errors.nil),
       mk (webs c) (configMaps c) (<[key := stored]> (deployments c)) (faults c))
  end.

Definition Client : client.Client t := {|
  client.Get_Web := Get webs;
  client.Get_ConfigMap := Get configMaps;
  client.Get_Deployment := Get deployments;
  client.Create_ConfigMap := Create_ConfigMap;
  client.Create_Deployment := Create_Deployment;
|}.

(** A reconciler on this cluster, and one pass of it. *)
Definition reconciler (scheme : runtime.Scheme.t) : controller.WebReconciler t :=
  {| controller.Client := Client; controller.Scheme := scheme |}.

Definition Reconcile (scheme : runtime.Scheme.t) (req : ctrl.Request.t) (c : t)
  : controller.Pass t :=
  controller.exec
    (controller.Reconcile controllerutil.SetControllerReference (reconciler scheme) req) c.

End cluster.


(** ** Vocabulary of the statements *)

(** The keys under which [Reconcile] looks for, and creates, the two
    dependents of a Web. *)
Definition cm_key (web : v1alpha1.Web.t) : NamespacedName.t :=
  {| NamespacedName.Namespace := v1alpha1.Web.Namespace web;
     NamespacedName.Name := v1alpha1.Web.Name web +:+ "-cm" |}.

Definition dep_key (web : v1alpha1.Web.t) : NamespacedName.t :=
  {| NamespacedName.Namespace := v1alpha1.Web.Namespace web;
     NamespacedName.Name := v1alpha1.Web.Name web +:+ "deployment" |}.

(** An object carries an owner link to a Web when its controller
    reference names that Web, by name and UID. *)
Definition carries_owner_link (owner : v1alpha1.Web.t) (m : metav1.ObjectMeta.t) : bool :=
  match metav1.GetControllerOf (metav1.ObjectMeta.OwnerReferences m) with
  | Some ref =>
      bool_decide (metav1.OwnerReference.Name ref = v1alpha1.Web.Name owner
                   ∧ metav1.OwnerReference.UID ref
                     = metav1.ObjectMeta.UID (v1alpha1.Web.ObjectMeta owner))
  | None => false
  end.

Definition create_carries_owner_link (owner : v1alpha1.Web.t) (ev : controller.Event) : bool :=
  match ev with
  | controller.EvCreate_ConfigMap obj _ =>
      carries_owner_link owner (corev1.ConfigMap.ObjectMeta obj)
  | controller.EvCreate_Deployment obj _ =>
      carries_owner_link owner (appsv1.Deployment.ObjectMeta obj)
  | _ => true
  end.

(** No container of a created Deployment declares a port. *)
Definition create_declares_no_port (ev : controller.Event) : bool :=
  match ev with
  | controller.EvCreate_Deployment obj _ =>
      forallb (λ ctr, match corev1.Container.Ports ctr with [] => true | _ => false end)
        (corev1.PodSpec.Containers
           (corev1.PodTemplateSpec.Spec
              (appsv1.DeploymentSpec.Template (appsv1.Deployment.Spec obj))))
  | _ => true
  end.

(** A Web with another [ContainerPort], and a cluster with a Web put
    under a key. *)
Definition SetContainerPort (port : Z) (web : v1alpha1.Web.t) : v1alpha1.Web.t :=
  v1alpha1.Web.mk (v1alpha1.Web.TypeMeta web) (v1alpha1.Web.ObjectMeta web)
    (v1alpha1.WebSpec.mk
       (v1alpha1.WebSpec.Size (v1alpha1.Web.Spec web))
       port
       (v1alpha1.WebSpec.Image (v1alpha1.Web.Spec web))
       (v1alpha1.WebSpec.HtmlContent (v1alpha1.Web.Spec web)))
    (v1alpha1.Web.Status web).

Definition put_Web (key : NamespacedName.t) (web : v1alpha1.Web.t) (c : cluster.t) : cluster.t :=
  cluster.mk (<[key := web]> (cluster.webs c)) (cluster.configMaps c)
    (cluster.deployments c) (cluster.faults c).

(** Two Webs that differ at most in their [ContainerPort]; two clusters
    that differ at most in the [ContainerPort] of their Webs. *)
Definition same_but_ContainerPort (a b : v1alpha1.Web.t) : Prop :=
  SetContainerPort 0 a = SetContainerPort 0 b.

Definition agree (c1 c2 : cluster.t) : Prop :=
  cluster.configMaps c1 = cluster.configMaps c2
  ∧ cluster.deployments c1 = cluster.deployments c2
  ∧ cluster.faults c1 = cluster.faults c2
  ∧ ∀ k, option_Forall2 same_but_ContainerPort (cluster.webs c1 !! k) (cluster.webs c2 !! k).

(** Two computations that, started on agreeing clusters with the same
    trace, leave the function alike or go on with related values, with the
    same trace and on agreeing clusters. *)
Definition sim {A B} (R : A → B → Prop)
    (m1 : controller.M cluster.t A) (m2 : controller.M cluster.t B) : Prop :=
  ∀ c1 c2 t, agree c1 c2 →
    match m1 (c1, t), m2 (c2, t) with
    | (inl o1, (c1', t1)), (inl o2, (c2', t2)) => o1 = o2 ∧ t1 = t2 ∧ agree c1' c2'
    | (inr a1, (c1', t1)), (inr a2, (c2', t2)) => R a1 a2 ∧ t1 = t2 ∧ agree c1' c2'
    | _, _ => False
    end.

Definition same_answer {A B} (R : A → B → Prop) (x : A * error) (y : B * error) : Prop :=
  R x.1 y.1 ∧ x.2 = y.2.

(** ** A Web named site *)
Module example.

Definition gvk : schema.GroupVersionKind.t :=
  schema.GroupVersionKind.mk "epam.com" "v1alpha1" "Web".

Definition scheme : runtime.Scheme.t := runtime.Scheme.mk [gvk].

(** A scheme the Web type was never added to. *)
Definition bare_scheme : runtime.Scheme.t := runtime.Scheme.mk [].

Definition site : v1alpha1.Web.t :=
  {| v1alpha1.Web.TypeMeta := metav1.TypeMeta.zero;
     v1alpha1.Web.ObjectMeta := metav1.ObjectMeta.mk "site" "ns" "uid-site" "7" ∅ [];
     v1alpha1.Web.Spec := v1alpha1.WebSpec.mk 2 80 "nginx:1.25" "<h1>hi</h1>";
     v1alpha1.Web.Status := v1alpha1.WebStatus.zero |}.

Definition key : NamespacedName.t := NamespacedName.mk "ns" "site".

Definition req : ctrl.Request.t := ctrl.Request.mk key.

Definition site_ref : metav1.OwnerReference.t :=
  {| metav1.OwnerReference.APIVersion := schema.GroupVersion.mk "epam.com" "v1alpha1";
     metav1.OwnerReference.Kind := "Web";
     metav1.OwnerReference.Name := "site";
     metav1.OwnerReference.UID := "uid-site";
     metav1.OwnerReference.Controller := Some true;
     metav1.OwnerReference.BlockOwnerDeletion := Some true |}.

Definition site_cm : corev1.ConfigMap.t :=
  {| corev1.ConfigMap.ObjectMeta := metav1.ObjectMeta.mk "site-cm" "ns" "" "" ∅ [site_ref];
     corev1.ConfigMap.Data := {[ "index.html" := "<h1>hi</h1>" ]} |}.

Definition site_deployment : appsv1.Deployment.t :=
  {| appsv1.Deployment.ObjectMeta :=
       metav1.ObjectMeta.mk "sitedeployment" "ns" "" "" ∅ [site_ref];
     appsv1.Deployment.Spec :=
       {| appsv1.DeploymentSpec.Replicas := None;
          appsv1.DeploymentSpec.Selector :=
            Some (metav1.LabelSelector.mk {[ "app" := "site" ]});
          appsv1.DeploymentSpec.Template :=
            {| corev1.PodTemplateSpec.ObjectMeta :=
                 metav1.ObjectMeta.mk "" "" "" "" {[ "app" := "site" ]} [];
               corev1.PodTemplateSpec.Spec :=
                 {| corev1.PodSpec.Volumes :=
                      [ corev1.Volume.mk "html"
                          (corev1.VolumeSource.mk
                             (Some (corev1.ConfigMapVolumeSource.mk
                                      (corev1.LocalObjectReference.mk "site-cm")))) ];
                    corev1.PodSpec.Containers :=
                      [ corev1.Container.mk "web-container" "nginx:1.25" []
                          [ corev1.VolumeMount.mk "html" "/app" ] ] |} |} |} |}.

(** Clusters: without the Web; with the Web and nothing else; with the
    Web and its ConfigMap; with the Web and both dependents. *)
Definition empty : cluster.t := cluster.mk ∅ ∅ ∅ [].

Definition fresh : cluster.t := cluster.mk {[ key := site ]} ∅ ∅ [].

Definition halfway : cluster.t :=
  cluster.mk {[ key := site ]}
    {[ NamespacedName.mk "ns" "site-cm" := cluster.stored_ConfigMap site_cm ]} ∅ [].

Definition converged : cluster.t :=
  cluster.mk {[ key := site ]}
    {[ NamespacedName.mk "ns" "site-cm" := cluster.stored_ConfigMap site_cm ]}
    {[ NamespacedName.mk "ns" "sitedeployment" := cluster.stored_Deployment site_deployment ]}
    [].



(** The Web is there; the ConfigMap is found missing, and then created
    by somebody else before this pass creates it. *)
Definition cm_race : cluster.t :=
  cluster.mk {[ key := site ]} ∅ ∅
    [errors.nil; errors.nil; errors.NewAlreadyExists "site-cm"].

(** One pass for the request of site. *)
Definition pass (c : cluster.t) : controller.Pass cluster.t :=
  cluster.Reconcile scheme req c.


Definition lost_create : controller.Event :=
  controller.EvCreate_ConfigMap site_cm (errors.NewAlreadyExists "site-cm").

End example.

(** ** Further vocabulary

    The order of the calls in the source, what a pass logs, and what a
    successful pass has seen. *)

Import controller.

Inductive StepTag :=
| TGet (kind : Kind)
| TSetControllerReference (kind : Kind)
| TCreate (kind : Kind).

Definition step_tag (ev : Event) : option StepTag :=
  match ev with
  | EvGet kind _ _ => Some (TGet kind)
  | EvSetControllerReference kind _ => Some (TSetControllerReference kind)
  | EvCreate_ConfigMap _ _ => Some (TCreate KConfigMap)
  | EvCreate_Deployment _ _ => Some (TCreate KDeployment)
  | EvLog _ _ => None
  end.

Definition program_order : list StepTag :=
  [TGet KWeb;
   TGet KConfigMap; TSetControllerReference KConfigMap; TCreate KConfigMap;
   TGet KDeployment; TSetControllerReference KDeployment; TCreate KDeployment].

Definition is_error_log (ev : Event) : bool :=
  match ev with
  | EvLog LevelError _ => true
  | _ => false
  end.


Definition uses_key_of (req : ctrl.Request.t) (web : v1alpha1.Web.t) (ev : Event) : Prop :=
  match ev with
  | EvGet KWeb key _ => key = ctrl.Request.NamespacedName req
  | EvGet KConfigMap key _ => key = cm_key web
  | EvGet KDeployment key _ => key = dep_key web
  | _ => True
  end.


(** *** The objects a pass builds, and the cluster it leaves

    [desired_ConfigMap] and [desired_Deployment] are the two struct
    literals of [Reconcile] with the owner reference set;
    [reconciled] adds to a cluster the dependents it lacks. *)

Definition desired_ConfigMap (gvk : schema.GroupVersionKind.t) (web : v1alpha1.Web.t)
  : corev1.ConfigMap.t :=
  {| corev1.ConfigMap.ObjectMeta :=
       metav1.ObjectMeta.mk (v1alpha1.Web.Name web +:+ "-cm") (v1alpha1.Web.Namespace web)
         "" "" ∅ [controllerutil.controllerRef gvk web];
     corev1.ConfigMap.Data :=
       {[ "index.html" := v1alpha1.WebSpec.HtmlContent (v1alpha1.Web.Spec web) ]} |}.

Definition desired_Deployment (gvk : schema.GroupVersionKind.t) (web : v1alpha1.Web.t)
    (cmName : string) : appsv1.Deployment.t :=
  {| appsv1.Deployment.ObjectMeta :=
       metav1.ObjectMeta.mk (v1alpha1.Web.Name web +:+ "deployment")
         (v1alpha1.Web.Namespace web) "" "" ∅ [controllerutil.controllerRef gvk web];
     appsv1.Deployment.Spec :=
       {| appsv1.DeploymentSpec.Replicas := None;
          appsv1.DeploymentSpec.Selector :=
            Some (metav1.LabelSelector.mk {[ "app" := v1alpha1.Web.Name web ]});
          appsv1.DeploymentSpec.Template :=
            {| corev1.PodTemplateSpec.ObjectMeta :=
                 metav1.ObjectMeta.mk "" "" "" "" {[ "app" := v1alpha1.Web.Name web ]} [];
               corev1.PodTemplateSpec.Spec :=
                 {| corev1.PodSpec.Volumes :=
                      [ corev1.Volume.mk "html"
                          (corev1.VolumeSource.mk
                             (Some (corev1.ConfigMapVolumeSource.mk
                                      (corev1.LocalObjectReference.mk cmName)))) ];
                    corev1.PodSpec.Containers :=
                      [ corev1.Container.mk "web-container"
                          (v1alpha1.WebSpec.Image (v1alpha1.Web.Spec web)) []
                          [ corev1.VolumeMount.mk "html" "/app" ] ] |} |} |} |}.

Definition ensure {A} (key : NamespacedName.t) (obj : A) (objs : gmap NamespacedName.t A)
  : gmap NamespacedName.t A :=
  match objs !! key with
  | Some _ => objs
  | None => <[key := obj]> objs
  end.

Definition ConfigMap_name_in_use (web : v1alpha1.Web.t) (c : cluster.t) : string :=
  match cluster.configMaps c !! cm_key web with
  | Some cm => corev1.ConfigMap.Name cm
  | None => v1alpha1.Web.Name web +:+ "-cm"
  end.

Definition reconciled (gvk : schema.GroupVersionKind.t) (web : v1alpha1.Web.t) (c : cluster.t)
  : cluster.t :=
  cluster.mk (cluster.webs c)
    (ensure (cm_key web) (cluster.stored_ConfigMap (desired_ConfigMap gvk web))
       (cluster.configMaps c))
    (ensure (dep_key web)
       (cluster.stored_Deployment
          (desired_Deployment gvk web (ConfigMap_name_in_use web c)))
       (cluster.deployments c))
    (cluster.faults c).

Definition missing_creates (gvk : schema.GroupVersionKind.t) (web : v1alpha1.Web.t)
    (c : cluster.t) : Trace :=
  (match cluster.configMaps c !! cm_key web with
   | Some _ => []
   | None => [EvCreate_ConfigMap (desired_ConfigMap gvk web) errors.nil]
   end)
  ++ (match cluster.deployments c !! dep_key web with
      | Some _ => []
      | None =>
          [EvCreate_Deployment
             (desired_Deployment gvk web (ConfigMap_name_in_use web c)) errors.nil]
      end).


(** *** A pass only adds *)

Definition grows (c c' : cluster.t) : Prop :=
  cluster.webs c' = cluster.webs c
  ∧ cluster.configMaps c ⊆ cluster.configMaps c'
  ∧ cluster.deployments c ⊆ cluster.deployments c'.

Definition keeps {A} (m : M cluster.t A) : Prop :=
  ∀ c t, grows c (m (c, t)).2.1.


(** *** SetupWithManager

    [SetupWithManager] hands the reconciler to controller-runtime's
    builder: [For] the Web, [Owns] the Deployment and the ConfigMap.  The
    builder and the two event handlers it installs are controller-runtime's;
    they are modelled here as far as the routing of an event to requests
    goes: an event on a Web asks for that Web, an event on an owned object
    asks for the Web named by the object's controller reference, in the
    object's namespace. *)

#[global] Instance Kind_eq_dec : EqDecision Kind.
Proof. solve_decision. Defined.

Module manager.

Inductive Watch :=
| WatchFor
| WatchOwns (kind : Kind).

Module Controller.
Record t := mk { watches : list Watch }.
End Controller.

Module Manager.
Record t := mk { GetScheme : runtime.Scheme.t; controllers : list Controller.t }.
End Manager.

Module Builder.
Record t := mk {
  mgr : Manager.t;
  forInput : option v1alpha1.Web.t;
  forErr : error;
  ownsInput : list Kind;
}.
End Builder.










End manager.



(** ** A second Web *)
Module example_blog.

Definition blog : v1alpha1.Web.t :=
  {| v1alpha1.Web.TypeMeta := metav1.TypeMeta.zero;
     v1alpha1.Web.ObjectMeta := metav1.ObjectMeta.mk "blog" "ns" "uid-blog" "3" ∅ [];
     v1alpha1.Web.Spec := v1alpha1.WebSpec.mk 1 8080 "httpd:2.4" "<p>blog</p>";
     v1alpha1.Web.Status := v1alpha1.WebStatus.zero |}.

Definition key : NamespacedName.t := NamespacedName.mk "ns" "blog".

Definition req : ctrl.Request.t := ctrl.Request.mk key.

(** A cluster with both Webs and no dependent. *)
Definition two_webs : cluster.t :=
  cluster.mk {[ example.key := example.site; key := blog ]} ∅ ∅ [].

(** A cluster where the ConfigMap of site is missing and its Deployment
    is there. *)
Definition cm_lost : cluster.t :=
  cluster.mk {[ example.key := example.site ]} ∅
    {[ NamespacedName.mk "ns" "sitedeployment"
         := cluster.stored_Deployment example.site_deployment ]}
    [].

End example_blog.

(** * Properties of a reconciliation pass *)

Import controller.

#[local] Arguments errors.IsNotFound : simpl never.
#[local] Arguments errors.IsAlreadyExists : simpl never.

(** ** Proof tools *)

(** Open the monad. *)
Ltac unfold_pass :=
  unfold exec, Reconcile, bind, ret, return_, log_Info, log_Error, emit,
    Get_Web, Get_ConfigMap, Get_Deployment, Create_ConfigMap, Create_Deployment,
    SetControllerReference_ConfigMap, SetControllerReference_Deployment, call,
    client.IgnoreNotFound;
  simpl.

(** Case analysis on the answer the pass is waiting for: the innermost
    scrutinee of the goal. *)
Ltac innermost x :=
  lazymatch x with
  | context [match ?y with _ => _ end] => innermost y
  | _ => x
  end.

Ltac case_step :=
  lazymatch goal with
  | |- context [match ?y with _ => _ end] =>
      let x := innermost y in destruct x eqn:?; simpl
  end.

(** All the ways to cut a given trace around one of its events. *)
Ltac split_trace H before :=
  destruct before as [|? before]; simpl in H;
  [ first [ discriminate H | injection H as ? ?; subst ]
  | first [ discriminate H | injection H as ? H; subst; split_trace H before ] ].

Ltac bool_hyps :=
  repeat match goal with
  | H : _ && _ = true |- _ => apply andb_true_iff in H; destruct H
  | H : _ && _ = false |- _ => apply andb_false_iff in H; destruct H
  | H : negb _ = true |- _ => apply negb_true_iff in H
  | H : negb _ = false |- _ => apply negb_false_iff in H
  end.

Ltac rewrite_hyps :=
  repeat match goal with
  | H : ?x = true |- context [?x] => rewrite H
  | H : ?x = false |- context [?x] => rewrite H
  | H : ?x = true, H' : context [?x] |- _ => rewrite H in H'
  | H : ?x = false, H' : context [?x] |- _ => rewrite H in H'
  end.


Ltac pick_in := simpl; ((left; reflexivity) + (right; pick_in)).

Ltac invert_Forall :=
  repeat match goal with
  | H : Forall _ (_ :: _) |- _ => apply Forall_cons in H; destruct H
  end.

(** ** Any client, any way of setting the owner reference *)

Section AnyClient.

Variable World : Type.
Variable SetControllerReference : ctrl.SetControllerReference_t.
Variable r : WebReconciler World.
Variable req : ctrl.Request.t.
Variable w : World.

#[local] Abbreviation pass := (exec (Reconcile SetControllerReference r req) w).

(** C2. When the fetch of the Web answers NotFound, the pass returns the
    empty result and no error, makes no write (its only step is that
    fetch), and leaves the cluster as the fetch left it. *)
Theorem Reconcile_absent_Web_is_noop web err w' :
  client.Get_Web (Client r) (ctrl.Request.NamespacedName req) v1alpha1.Web.zero w
    = ((web, err), w') →
  errors.IsNotFound err = true →
  outcome pass = (ctrl.Result.zero, errors.nil)
  ∧ writes (trace pass) = []
  ∧ steps (trace pass) = [EvGet KWeb (ctrl.Request.NamespacedName req) err]
  ∧ world pass = w'.
Proof.
  intros Hget Hnf. unfold_pass. rewrite Hget. simpl.
  destruct err as [e|]; [|discriminate Hnf].
  simpl. rewrite Hnf. simpl. done.
Qed.


(** C6. A create answered AlreadyExists does not end the pass: after
    such a create of the ConfigMap the next step is the fetch of the
    Deployment, and such a create of the Deployment is the last step, of
    a pass that succeeds; the error the pass returns, if any, is the
    failure of a later step; and the pass succeeds when no other step
    fails. *)
Theorem Reconcile_conflict_is_swallowed before ev after :
  trace pass = before ++ ev :: after →
  is_conflict ev = true →
  (kind_of ev = Some KConfigMap →
     ∃ key err rest, steps after = EvGet KDeployment key err :: rest)
  ∧ (kind_of ev = Some KDeployment →
     steps after = [] ∧ outcome pass = (ctrl.Result.zero, errors.nil))
  ∧ ((outcome pass).2 = errors.nil
     ∨ ∃ ev', In ev' after ∧ errors.notnil (step_failure ev') = true
              ∧ (outcome pass).2 = step_failure ev')
  ∧ (Forall (λ ev', step_failure ev' = errors.nil) (before ++ after) →
     outcome pass = (ctrl.Result.zero, errors.nil)).
Proof.
  unfold_pass.
  repeat case_step.
  all: intros H Hc.
  all: split_trace H before.
  all: simpl in *; try discriminate.
  all: bool_hyps; try congruence.
  all: split_and!; try (intros; congruence); try (intros; eauto; fail).
  all: try (intros HF; invert_Forall; simpl in *; rewrite_hyps; simpl in *; congruence).
  all: try (left; reflexivity).
  all: try (right; eexists; split; [pick_in|]; simpl; rewrite_hyps; simpl; split; done).
Qed.

(** What is asked of [SetControllerReference]: when it succeeds on an
    object without owner references, the object carries the owner link. *)
Hypothesis SetControllerReference_links : ∀ owner m scheme m',
  metav1.ObjectMeta.OwnerReferences m = [] →
  SetControllerReference owner m scheme = (m', errors.nil) →
  carries_owner_link owner m' = true.

(** C7. When setting the owner reference on a dependent fails, the pass
    returns that error and has no create of that dependent; every create
    of a dependent comes after the owner reference was set on it without
    error; and every object the pass sends to create carries the owner
    link to the Web the pass fetched. *)
Theorem Reconcile_create_needs_owner_link :
  (∀ before kind err after,
     trace pass = before ++ EvSetControllerReference kind err :: after →
     errors.notnil err = true →
     outcome pass = (ctrl.Result.zero, err)
     ∧ Forall (λ ev, is_create_of kind ev = false) (trace pass))
  ∧ (∀ before ev after kind,
       trace pass = before ++ ev :: after →
       is_create_of kind ev = true →
       In (EvSetControllerReference kind errors.nil) before)
  ∧ (∀ web err w',
       client.Get_Web (Client r) (ctrl.Request.NamespacedName req) v1alpha1.Web.zero w
         = ((web, err), w') →
       Forall (λ ev, create_carries_owner_link web ev = true) (trace pass)).
Proof.
  split_and!.
  - intros before kind err after. unfold_pass.
    repeat case_step.
    all: intros H Hfail.
    all: split_trace H before.
    all: simpl in *; bool_hyps; try congruence.
    all: split; [done|]; repeat constructor; simpl; destruct kind; congruence.
  - intros before ev after kind. unfold_pass.
    repeat case_step.
    all: intros H Hc.
    all: split_trace H before.
    all: simpl in *; try (destruct kind; discriminate).
    all: repeat match goal with e : error |- _ => destruct e; try discriminate end.
    all: destruct kind; try discriminate; simpl; tauto.
  - intros web err w' Hget. unfold_pass. rewrite Hget. simpl.
    repeat case_step.
    all: repeat constructor; simpl.
    all: repeat match goal with e : error |- _ => destruct e; try discriminate end.
    all: eapply SetControllerReference_links; [|eassumption]; reflexivity.
Qed.

(** C8. Whatever the Web and its [Size], a Deployment the pass sends to
    create has no replica count. *)
Theorem Reconcile_Deployment_has_no_replicas dep err :
  In (EvCreate_Deployment dep err) (trace pass) →
  appsv1.DeploymentSpec.Replicas (appsv1.Deployment.Spec dep) = None.
Proof.
  unfold_pass.
  repeat case_step.
  all: intros H; simpl in H; intuition; try discriminate.
  all: match goal with H : EvCreate_Deployment _ _ = _ |- _ => injection H as <- _ end.
  all: reflexivity.
Qed.

Lemma created_Deployment_declares_no_port :
  Forall (λ ev, create_declares_no_port ev = true) (trace pass).
Proof.
  unfold_pass.
  repeat case_step.
  all: repeat constructor.
Qed.

End AnyClient.

(** ** The cluster's operations, and controller-runtime's owner reference *)

Lemma Get_healthy {A} (objs : cluster.t → gmap NamespacedName.t A) key obj c :
  cluster.healthy c →
  cluster.Get objs key obj c = (cluster.lookup_or_NotFound (objs c) key obj, c).
Proof.
  unfold cluster.healthy, cluster.Get, cluster.next_fault. intros ->. reflexivity.
Qed.

Lemma Create_ConfigMap_healthy obj c :
  cluster.healthy c →
  cluster.configMaps c
    !! NamespacedName.mk (corev1.ConfigMap.Namespace obj) (corev1.ConfigMap.Name obj) = None →
  cluster.Create_ConfigMap obj c
  = ((cluster.stored_ConfigMap obj, errors.nil),
     cluster.mk (cluster.webs c)
       (<[NamespacedName.mk (corev1.ConfigMap.Namespace obj) (corev1.ConfigMap.Name obj)
          := cluster.stored_ConfigMap obj]> (cluster.configMaps c))
       (cluster.deployments c) (cluster.faults c)).
Proof.
  unfold cluster.healthy, cluster.Create_ConfigMap, cluster.next_fault.
  intros Hf Hnone. rewrite Hf. simpl. rewrite Hnone. rewrite Hf. reflexivity.
Qed.

Lemma Create_Deployment_healthy obj c :
  cluster.healthy c →
  cluster.deployments c
    !! NamespacedName.mk (appsv1.Deployment.Namespace obj) (appsv1.Deployment.Name obj) = None →
  cluster.Create_Deployment obj c
  = ((cluster.stored_Deployment obj, errors.nil),
     cluster.mk (cluster.webs c) (cluster.configMaps c)
       (<[NamespacedName.mk (appsv1.Deployment.Namespace obj) (appsv1.Deployment.Name obj)
          := cluster.stored_Deployment obj]> (cluster.deployments c))
       (cluster.faults c)).
Proof.
  unfold cluster.healthy, cluster.Create_Deployment, cluster.next_fault.
  intros Hf Hnone. rewrite Hf. simpl. rewrite Hnone. rewrite Hf. reflexivity.
Qed.

Lemma validateOwner_same_namespace owner object :
  metav1.ObjectMeta.Namespace object = metav1.ObjectMeta.Namespace owner →
  controllerutil.validateOwner owner object = errors.nil.
Proof.
  intros Hns. unfold controllerutil.validateOwner. rewrite Hns.
  repeat case_bool_decide; congruence.
Qed.

(** On an object of the owner's namespace that has no owner yet, and
    with the owner's kind known to the scheme, the call succeeds and sets
    the one reference. *)
Lemma SetControllerReference_fresh owner m scheme gvk :
  controllerutil.GVKForObject owner scheme = (gvk, errors.nil) →
  metav1.ObjectMeta.Namespace m = v1alpha1.Web.Namespace owner →
  metav1.ObjectMeta.OwnerReferences m = [] →
  controllerutil.SetControllerReference owner m scheme
  = (metav1.ObjectMeta.SetOwnerReferences [controllerutil.controllerRef gvk owner] m,
     errors.nil).
Proof.
  intros Hgvk Hns Hrefs. unfold controllerutil.SetControllerReference.
  rewrite validateOwner_same_namespace by exact Hns.
  simpl. rewrite Hgvk. simpl. rewrite Hrefs. reflexivity.
Qed.

(** controller-runtime's [SetControllerReference] meets what C7 asks. *)
Lemma controllerutil_SetControllerReference_links owner m scheme m' :
  metav1.ObjectMeta.OwnerReferences m = [] →
  controllerutil.SetControllerReference owner m scheme = (m', errors.nil) →
  carries_owner_link owner m' = true.
Proof.
  intros Hrefs. unfold controllerutil.SetControllerReference.
  destruct (controllerutil.validateOwner _ _) as [e|]; simpl; [discriminate|].
  destruct (controllerutil.GVKForObject owner scheme) as [gvk [e|]]; simpl; [discriminate|].
  rewrite Hrefs. simpl. intros [= <-].
  unfold carries_owner_link. simpl. by apply bool_decide_eq_true_2.
Qed.

(** ** A healthy cluster that holds the Web *)

Section HealthyCluster.

Variable scheme : runtime.Scheme.t.
Variable req : ctrl.Request.t.
Variable c : cluster.t.
Variable web : v1alpha1.Web.t.
Variable gvk : schema.GroupVersionKind.t.

Hypothesis c_healthy : cluster.healthy c.
Hypothesis c_web : cluster.webs c !! ctrl.Request.NamespacedName req = Some web.
Hypothesis web_kind : controllerutil.GVKForObject web scheme = (gvk, errors.nil).

(** C3. With both dependents in the cluster, a pass fetches the three
    objects and succeeds, writes nothing and leaves the cluster as it
    was; so does the pass that follows it. *)
Theorem Reconcile_idempotent cm dep :
  cluster.configMaps c !! cm_key web = Some cm →
  cluster.deployments c !! dep_key web = Some dep →
  let p1 := cluster.Reconcile scheme req c in
  let p2 := cluster.Reconcile scheme req (world p1) in
  (outcome p1 = (ctrl.Result.zero, errors.nil) ∧ writes (trace p1) = [] ∧ world p1 = c)
  ∧ (outcome p2 = (ctrl.Result.zero, errors.nil) ∧ writes (trace p2) = [] ∧ world p2 = c)
  ∧ outcome p1 = outcome p2.
Proof.
  intros Hcm Hdep.
  assert (Hp : cluster.Reconcile scheme req c
    = {| outcome := (ctrl.Result.zero, errors.nil); world := c;
         trace := [EvGet KWeb (ctrl.Request.NamespacedName req) errors.nil;
                   EvGet KConfigMap (cm_key web) errors.nil;
                   EvGet KDeployment (dep_key web) errors.nil] |}).
  { unfold cluster.Reconcile. unfold_pass.
    rewrite Get_healthy by done. unfold cluster.lookup_or_NotFound. rewrite c_web. simpl.
    rewrite Get_healthy by done. unfold cluster.lookup_or_NotFound.
    unfold cm_key in Hcm. rewrite Hcm. simpl.
    rewrite Get_healthy by done. unfold cluster.lookup_or_NotFound.
    unfold dep_key in Hdep. rewrite Hdep. simpl.
    reflexivity. }
  simpl. rewrite Hp. simpl. rewrite Hp. simpl. done.
Qed.

(** C9. With the ConfigMap in the cluster and the Deployment missing, a
    pass succeeds, its one write is the create of the Deployment under
    the derived key, and the ConfigMaps (and Webs) of the cluster are
    what they were. *)
Theorem Reconcile_resumes_after_partial_failure cm :
  cluster.configMaps c !! cm_key web = Some cm →
  cluster.deployments c !! dep_key web = None →
  let p := cluster.Reconcile scheme req c in
  ∃ dep,
    outcome p = (ctrl.Result.zero, errors.nil)
    ∧ writes (trace p) = [EvCreate_Deployment dep errors.nil]
    ∧ NamespacedName.mk (appsv1.Deployment.Namespace dep) (appsv1.Deployment.Name dep)
      = dep_key web
    ∧ cluster.deployments (world p)
      = <[dep_key web := cluster.stored_Deployment dep]> (cluster.deployments c)
    ∧ cluster.configMaps (world p) = cluster.configMaps c
    ∧ cluster.webs (world p) = cluster.webs c.
Proof.
  intros Hcm Hdep. eexists.
  unfold cluster.Reconcile. unfold_pass.
  rewrite Get_healthy by done. unfold cluster.lookup_or_NotFound. rewrite c_web. simpl.
  rewrite Get_healthy by done. unfold cluster.lookup_or_NotFound.
  unfold cm_key in Hcm. rewrite Hcm. simpl.
  rewrite Get_healthy by done. unfold cluster.lookup_or_NotFound. simpl.
  unfold dep_key in Hdep. rewrite Hdep. simpl.
  rewrite (SetControllerReference_fresh _ _ _ gvk) by done. simpl.
  rewrite Create_Deployment_healthy by done. simpl.
  split_and!; reflexivity.
Qed.

(** The whole pass when neither dependent is in the cluster. *)
Lemma Reconcile_without_dependents :
  cluster.configMaps c !! cm_key web = None →
  cluster.deployments c !! dep_key web = None →
  ∃ cm dep,
    cluster.Reconcile scheme req c
    = {| outcome := (ctrl.Result.zero, errors.nil);
         world :=
           cluster.mk (cluster.webs c)
             (<[cm_key web := cluster.stored_ConfigMap cm]> (cluster.configMaps c))
             (<[dep_key web := cluster.stored_Deployment dep]> (cluster.deployments c))
             (cluster.faults c);
         trace :=
           [EvGet KWeb (ctrl.Request.NamespacedName req) errors.nil;
            EvGet KConfigMap (cm_key web)
              (errors.NewNotFound (NamespacedName.Name (cm_key web)));
            EvSetControllerReference KConfigMap errors.nil;
            EvCreate_ConfigMap cm errors.nil;
            EvLog LevelInfo "ConfigMap has been created";
            EvGet KDeployment (dep_key web)
              (errors.NewNotFound (NamespacedName.Name (dep_key web)));
            EvSetControllerReference KDeployment errors.nil;
            EvCreate_Deployment dep errors.nil;
            EvLog LevelInfo "Deployment has been created"] |}
    ∧ corev1.ConfigMap.ObjectMeta cm
      = metav1.ObjectMeta.mk (v1alpha1.Web.Name web +:+ "-cm") (v1alpha1.Web.Namespace web)
          "" "" ∅ [controllerutil.controllerRef gvk web]
    ∧ corev1.ConfigMap.Data cm
      = {[ "index.html" := v1alpha1.WebSpec.HtmlContent (v1alpha1.Web.Spec web) ]}
    ∧ appsv1.Deployment.ObjectMeta dep
      = metav1.ObjectMeta.mk (v1alpha1.Web.Name web +:+ "deployment")
          (v1alpha1.Web.Namespace web) "" "" ∅ [controllerutil.controllerRef gvk web]
    ∧ corev1.PodTemplateSpec.Spec (appsv1.DeploymentSpec.Template (appsv1.Deployment.Spec dep))
      = {| corev1.PodSpec.Volumes :=
             [ corev1.Volume.mk "html"
                 (corev1.VolumeSource.mk
                    (Some (corev1.ConfigMapVolumeSource.mk
                             (corev1.LocalObjectReference.mk
                                (v1alpha1.Web.Name web +:+ "-cm"))))) ];
           corev1.PodSpec.Containers :=
             [ corev1.Container.mk "web-container"
                 (v1alpha1.WebSpec.Image (v1alpha1.Web.Spec web)) []
                 [ corev1.VolumeMount.mk "html" "/app" ] ] |}.
Proof.
  intros Hcm Hdep. eexists _, _. split.
  - unfold cluster.Reconcile. unfold_pass.
    rewrite Get_healthy by done. unfold cluster.lookup_or_NotFound. rewrite c_web. simpl.
    rewrite Get_healthy by done. unfold cluster.lookup_or_NotFound.
    unfold cm_key in Hcm. rewrite Hcm. simpl.
    rewrite (SetControllerReference_fresh _ _ _ gvk) by done. simpl.
    rewrite Create_ConfigMap_healthy by done. simpl.
    rewrite Get_healthy by done. unfold cluster.lookup_or_NotFound. simpl.
    unfold dep_key in Hdep. rewrite Hdep. simpl.
    rewrite (SetControllerReference_fresh _ _ _ gvk) by done. simpl.
    rewrite Create_Deployment_healthy by done. simpl.
    reflexivity.
  - simpl. split_and!; reflexivity.
Qed.

(** C4. With neither dependent in the cluster, a pass succeeds and makes
    two writes, the create of the ConfigMap and then the create of the
    Deployment; the ConfigMap is named after the Web with the suffix -cm,
    the one volume of the Deployment has that very name as its ConfigMap
    source, and the cluster holds the ConfigMap under its key when the
    pass is over. *)
Theorem Reconcile_creates_ConfigMap_before_Deployment :
  cluster.configMaps c !! cm_key web = None →
  cluster.deployments c !! dep_key web = None →
  let p := cluster.Reconcile scheme req c in
  ∃ cm dep before between after,
    outcome p = (ctrl.Result.zero, errors.nil)
    ∧ trace p = before ++ EvCreate_ConfigMap cm errors.nil
                  :: between ++ EvCreate_Deployment dep errors.nil :: after
    ∧ writes (trace p) = [EvCreate_ConfigMap cm errors.nil; EvCreate_Deployment dep errors.nil]
    ∧ corev1.ConfigMap.Name cm = v1alpha1.Web.Name web +:+ "-cm"
    ∧ corev1.PodSpec.Volumes
        (corev1.PodTemplateSpec.Spec
           (appsv1.DeploymentSpec.Template (appsv1.Deployment.Spec dep)))
      = [ corev1.Volume.mk "html"
            (corev1.VolumeSource.mk
               (Some (corev1.ConfigMapVolumeSource.mk
                        (corev1.LocalObjectReference.mk (corev1.ConfigMap.Name cm))))) ]
    ∧ cluster.configMaps (world p) !! cm_key web = Some (cluster.stored_ConfigMap cm).
Proof.
  intros Hcm Hdep.
  destruct (Reconcile_without_dependents Hcm Hdep)
    as (cm & dep & Hp & Hcmeta & _ & _ & Hpod).
  exists cm, dep.
  exists [EvGet KWeb (ctrl.Request.NamespacedName req) errors.nil;
          EvGet KConfigMap (cm_key web)
            (errors.NewNotFound (NamespacedName.Name (cm_key web)));
          EvSetControllerReference KConfigMap errors.nil].
  exists [EvLog LevelInfo "ConfigMap has been created";
          EvGet KDeployment (dep_key web)
            (errors.NewNotFound (NamespacedName.Name (dep_key web)));
          EvSetControllerReference KDeployment errors.nil].
  exists [EvLog LevelInfo "Deployment has been created"].
  simpl. rewrite Hp. simpl.
  unfold corev1.ConfigMap.Name. rewrite Hcmeta, Hpod. simpl.
  split_and!; try reflexivity.
  apply lookup_insert_eq.
Qed.

(** C1. For the Web site of namespace ns, with size 2, container port 80,
    image nginx:1.25 and content <h1>hi</h1>, and neither dependent in
    the cluster: a pass succeeds, and its writes are the create of a
    ConfigMap site-cm in ns whose data is the one entry index.html with
    the content, and the create of a Deployment sitedeployment in ns with
    one container, of image nginx:1.25, that mounts at /app the volume
    whose source is the ConfigMap site-cm; the cluster then holds the two
    under these names. *)
Theorem Reconcile_site_scenario :
  v1alpha1.Web.Name web = "site" →
  v1alpha1.Web.Namespace web = "ns" →
  v1alpha1.Web.Spec web = v1alpha1.WebSpec.mk 2 80 "nginx:1.25" "<h1>hi</h1>" →
  cluster.configMaps c !! NamespacedName.mk "ns" "site-cm" = None →
  cluster.deployments c !! NamespacedName.mk "ns" "sitedeployment" = None →
  let p := cluster.Reconcile scheme req c in
  ∃ cm dep,
    outcome p = (ctrl.Result.zero, errors.nil)
    ∧ writes (trace p) = [EvCreate_ConfigMap cm errors.nil; EvCreate_Deployment dep errors.nil]
    ∧ cluster.configMaps (world p)
      = <[NamespacedName.mk "ns" "site-cm" := cluster.stored_ConfigMap cm]>
          (cluster.configMaps c)
    ∧ cluster.deployments (world p)
      = <[NamespacedName.mk "ns" "sitedeployment" := cluster.stored_Deployment dep]>
          (cluster.deployments c)
    ∧ corev1.ConfigMap.Name cm = "site-cm"
    ∧ corev1.ConfigMap.Namespace cm = "ns"
    ∧ corev1.ConfigMap.Data cm = {[ "index.html" := "<h1>hi</h1>" ]}
    ∧ appsv1.Deployment.Name dep = "sitedeployment"
    ∧ appsv1.Deployment.Namespace dep = "ns"
    ∧ corev1.PodTemplateSpec.Spec (appsv1.DeploymentSpec.Template (appsv1.Deployment.Spec dep))
      = {| corev1.PodSpec.Volumes :=
             [ corev1.Volume.mk "html"
                 (corev1.VolumeSource.mk
                    (Some (corev1.ConfigMapVolumeSource.mk
                             (corev1.LocalObjectReference.mk "site-cm")))) ];
           corev1.PodSpec.Containers :=
             [ corev1.Container.mk "web-container" "nginx:1.25" []
                 [ corev1.VolumeMount.mk "html" "/app" ] ] |}.
Proof.
  intros Hname Hns Hspec Hcm Hdep.
  assert (Hck : cm_key web = NamespacedName.mk "ns" "site-cm")
    by (unfold cm_key; rewrite Hname, Hns; reflexivity).
  assert (Hdk : dep_key web = NamespacedName.mk "ns" "sitedeployment")
    by (unfold dep_key; rewrite Hname, Hns; reflexivity).
  rewrite <- Hck in Hcm. rewrite <- Hdk in Hdep.
  destruct (Reconcile_without_dependents Hcm Hdep)
    as (cm & dep & Hp & Hcmeta & Hdata & Hdmeta & Hpod).
  exists cm, dep. simpl. rewrite Hp. simpl.
  unfold corev1.ConfigMap.Name, corev1.ConfigMap.Namespace,
    appsv1.Deployment.Name, appsv1.Deployment.Namespace.
  rewrite Hcmeta, Hdata, Hdmeta, Hpod, Hck, Hdk, Hname, Hns, Hspec. simpl.
  split_and!; reflexivity.
Qed.

End HealthyCluster.

(** ** Clusters that differ in a ContainerPort

    A pass on one of two agreeing clusters is simulated, call by call, by
    the pass on the other: the rules below carry [sim] through the
    constructions of the monad, and the two clusters answer alike. *)

Lemma sim_ret {A B} (R : A → B → Prop) a b : R a b → sim R (ret a) (ret b).
Proof. intros HR c1 c2 t Hc. simpl. done. Qed.

Lemma sim_return {A B} (R : A → B → Prop) out : sim R (return_ out) (return_ out).
Proof. intros c1 c2 t Hc. simpl. done. Qed.

Lemma sim_emit ev : sim eq (emit ev) (emit ev).
Proof. intros c1 c2 t Hc. simpl. done. Qed.

Lemma sim_bind {A1 A2 B1 B2} (R : A1 → A2 → Prop) (S : B1 → B2 → Prop)
    (m1 : M cluster.t A1) (m2 : M cluster.t A2) f1 f2 :
  sim R m1 m2 →
  (∀ a1 a2, R a1 a2 → sim S (f1 a1) (f2 a2)) →
  sim S (bind m1 f1) (bind m2 f2).
Proof.
  intros Hm Hf c1 c2 t Hc. unfold bind. specialize (Hm c1 c2 t Hc).
  destruct (m1 (c1, t)) as [[o1|a1] [c1' t1]], (m2 (c2, t)) as [[o2|a2] [c2' t2]];
    try done.
  destruct Hm as (HR & -> & Hc'). by apply Hf.
Qed.

Lemma sim_call {A B} (R : A → B → Prop) op1 op2 ev :
  (∀ c1 c2, agree c1 c2 →
     same_answer R (op1 c1).1 (op2 c2).1 ∧ agree (op1 c1).2 (op2 c2).2) →
  sim (same_answer R) (call op1 ev) (call op2 ev).
Proof.
  intros Hop c1 c2 t Hc. unfold call. simpl. specialize (Hop c1 c2 Hc).
  destruct (op1 c1) as [r1 c1'], (op2 c2) as [r2 c2']. simpl in *.
  destruct Hop as [[HR He] Hc']. rewrite He. done.
Qed.

Lemma same_answer_eq {A} (x y : A * error) : same_answer eq x y → x = y.
Proof. destruct x, y. intros [? ?]; simpl in *. congruence. Qed.

Lemma sim_call_eq {A} (op1 op2 : cluster.t → (A * error) * cluster.t) ev :
  (∀ c1 c2, agree c1 c2 →
     same_answer eq (op1 c1).1 (op2 c2).1 ∧ agree (op1 c1).2 (op2 c2).2) →
  sim eq (call op1 ev) (call op2 ev).
Proof.
  intros Hop c1 c2 t Hc. pose proof (sim_call eq op1 op2 ev Hop c1 c2 t Hc) as H.
  destruct (call op1 ev (c1, t)) as [[?|?] [? ?]], (call op2 ev (c2, t)) as [[?|?] [? ?]];
    try done.
  destruct H as (H & ? & ?). apply same_answer_eq in H. done.
Qed.

Lemma same_but_ContainerPort_refl web : same_but_ContainerPort web web.
Proof. by unfold same_but_ContainerPort. Qed.

Lemma same_but_ContainerPort_Set port web :
  same_but_ContainerPort web (SetContainerPort port web).
Proof. by destruct web as [? ? [] ?]. Qed.

Lemma agree_put_Web key web port c :
  agree (put_Web key web c) (put_Web key (SetContainerPort port web) c).
Proof.
  unfold agree, put_Web. simpl. split_and!; try done.
  intros k. destruct (decide (key = k)) as [->|Hne].
  - rewrite !lookup_insert_eq. constructor. apply same_but_ContainerPort_Set.
  - rewrite !lookup_insert_ne by done.
    destruct (cluster.webs c !! k); constructor. apply same_but_ContainerPort_refl.
Qed.

Lemma agree_next_fault c1 c2 :
  agree c1 c2 →
  (cluster.next_fault c1).1 = (cluster.next_fault c2).1
  ∧ agree (cluster.next_fault c1).2 (cluster.next_fault c2).2.
Proof.
  intros Hc. pose proof Hc as (Hcm & Hd & Hf & Hw).
  unfold cluster.next_fault. rewrite Hf.
  destruct (cluster.faults c2); simpl; [done|]. by split.
Qed.

Lemma Get_Web_agree key obj c1 c2 :
  agree c1 c2 →
  same_answer same_but_ContainerPort
    (cluster.Get cluster.webs key obj c1).1 (cluster.Get cluster.webs key obj c2).1
  ∧ agree (cluster.Get cluster.webs key obj c1).2 (cluster.Get cluster.webs key obj c2).2.
Proof.
  intros Hc. unfold cluster.Get.
  destruct (agree_next_fault c1 c2 Hc) as [Hf Hc'].
  destruct (cluster.next_fault c1) as [f1 c1'], (cluster.next_fault c2) as [f2 c2'].
  simpl in *. subst f2. destruct (errors.notnil f1); simpl; [done|].
  split; [|done]. unfold cluster.lookup_or_NotFound.
  destruct Hc' as (_ & _ & _ & Hw). specialize (Hw key).
  destruct Hw; simpl; done.
Qed.

Lemma Get_dependent_agree {A} (objs : cluster.t → gmap NamespacedName.t A) key obj c1 c2 :
  (∀ c1 c2, agree c1 c2 → objs c1 = objs c2) →
  agree c1 c2 →
  same_answer eq (cluster.Get objs key obj c1).1 (cluster.Get objs key obj c2).1
  ∧ agree (cluster.Get objs key obj c1).2 (cluster.Get objs key obj c2).2.
Proof.
  intros Hobjs Hc. unfold cluster.Get.
  destruct (agree_next_fault c1 c2 Hc) as [Hf Hc'].
  destruct (cluster.next_fault c1) as [f1 c1'], (cluster.next_fault c2) as [f2 c2'].
  simpl in *. subst f2. destruct (errors.notnil f1); simpl; [done|].
  by rewrite (Hobjs _ _ Hc').
Qed.

Lemma Create_ConfigMap_agree obj c1 c2 :
  agree c1 c2 →
  same_answer eq (cluster.Create_ConfigMap obj c1).1 (cluster.Create_ConfigMap obj c2).1
  ∧ agree (cluster.Create_ConfigMap obj c1).2 (cluster.Create_ConfigMap obj c2).2.
Proof.
  intros Hc. unfold cluster.Create_ConfigMap.
  destruct (agree_next_fault c1 c2 Hc) as [Hf Hc'].
  destruct (cluster.next_fault c1) as [f1 c1'], (cluster.next_fault c2) as [f2 c2'].
  simpl in *. subst f2. destruct (errors.notnil f1); simpl; [done|].
  destruct Hc' as (Hcm & Hd & Hfs & Hw). rewrite Hcm.
  destruct (cluster.configMaps c2' !! _); simpl; [done|].
  unfold agree; simpl. done.
Qed.

Lemma Create_Deployment_agree obj c1 c2 :
  agree c1 c2 →
  same_answer eq (cluster.Create_Deployment obj c1).1 (cluster.Create_Deployment obj c2).1
  ∧ agree (cluster.Create_Deployment obj c1).2 (cluster.Create_Deployment obj c2).2.
Proof.
  intros Hc. unfold cluster.Create_Deployment.
  destruct (agree_next_fault c1 c2 Hc) as [Hf Hc'].
  destruct (cluster.next_fault c1) as [f1 c1'], (cluster.next_fault c2) as [f2 c2'].
  simpl in *. subst f2. destruct (errors.notnil f1); simpl; [done|].
  destruct Hc' as (Hcm & Hd & Hfs & Hw). rewrite Hd.
  destruct (cluster.deployments c2' !! _); simpl; [done|].
  unfold agree; simpl. done.
Qed.

(** The owner reference does not read the Web's spec. *)
Lemma SetControllerReference_ContainerPort web1 web2 m scheme :
  same_but_ContainerPort web1 web2 →
  controllerutil.SetControllerReference web1 m scheme
  = controllerutil.SetControllerReference web2 m scheme.
Proof.
  destruct web1 as [tm1 om1 [sz1 p1 im1 h1] st1], web2 as [tm2 om2 [sz2 p2 im2 h2] st2].
  unfold same_but_ContainerPort, SetContainerPort. simpl. intros [= -> -> -> -> -> ->].
  reflexivity.
Qed.

Lemma sim_SetControllerReference_ConfigMap web1 web2 cm scheme :
  same_but_ContainerPort web1 web2 →
  sim eq
    (SetControllerReference_ConfigMap controllerutil.SetControllerReference web1 cm scheme)
    (SetControllerReference_ConfigMap controllerutil.SetControllerReference web2 cm scheme).
Proof.
  intros Hw. unfold SetControllerReference_ConfigMap.
  rewrite (SetControllerReference_ContainerPort web1 web2) by done.
  apply sim_call_eq. intros c1 c2 Hc. simpl. done.
Qed.

Lemma sim_SetControllerReference_Deployment web1 web2 dep scheme :
  same_but_ContainerPort web1 web2 →
  sim eq
    (SetControllerReference_Deployment controllerutil.SetControllerReference web1 dep scheme)
    (SetControllerReference_Deployment controllerutil.SetControllerReference web2 dep scheme).
Proof.
  intros Hw. unfold SetControllerReference_Deployment.
  rewrite (SetControllerReference_ContainerPort web1 web2) by done.
  apply sim_call_eq. intros c1 c2 Hc. simpl. done.
Qed.

(** One rule of the simulation, chosen by the shape of the computation. *)
Ltac sim_intro :=
  let a := fresh "a" in
  intros a ? <-;
  lazymatch type of a with
  | (_ * _)%type => destruct a
  | _ => idtac
  end;
  cbv beta iota.

Ltac sim_step :=
  lazymatch goal with
  | |- sim eq (bind _ _) (bind _ _) => apply (sim_bind eq); [|sim_intro]
  | |- sim eq (if ?b then _ else _) (if ?b then _ else _) => destruct b
  | |- sim eq (ret _) (ret _) => by apply sim_ret
  | |- sim eq (return_ _) (return_ _) => apply sim_return
  | |- sim eq (log_Info _) (log_Info _) => apply sim_emit
  | |- sim eq (log_Error _ _) (log_Error _ _) => apply sim_emit
  | |- sim eq (SetControllerReference_ConfigMap _ _ _ _) _ =>
      by apply sim_SetControllerReference_ConfigMap
  | |- sim eq (SetControllerReference_Deployment _ _ _ _) _ =>
      by apply sim_SetControllerReference_Deployment
  | |- sim eq (Get_ConfigMap _ _ _) _ =>
      apply sim_call_eq; intros; by apply Get_dependent_agree; [intros ? ? (? & ? & ? & ?)|]
  | |- sim eq (Get_Deployment _ _ _) _ =>
      apply sim_call_eq; intros; by apply Get_dependent_agree; [intros ? ? (? & ? & ? & ?)|]
  | |- sim eq (Create_ConfigMap _ _) _ =>
      apply sim_call_eq; intros; by apply Create_ConfigMap_agree
  | |- sim eq (Create_Deployment _ _) _ =>
      apply sim_call_eq; intros; by apply Create_Deployment_agree
  end.

Lemma same_but_ContainerPort_fields web1 web2 :
  same_but_ContainerPort web1 web2 →
  v1alpha1.Web.Name web2 = v1alpha1.Web.Name web1
  ∧ v1alpha1.Web.Namespace web2 = v1alpha1.Web.Namespace web1
  ∧ v1alpha1.WebSpec.Image (v1alpha1.Web.Spec web2)
    = v1alpha1.WebSpec.Image (v1alpha1.Web.Spec web1)
  ∧ v1alpha1.WebSpec.HtmlContent (v1alpha1.Web.Spec web2)
    = v1alpha1.WebSpec.HtmlContent (v1alpha1.Web.Spec web1).
Proof.
  destruct web1 as [tm1 om1 [sz1 p1 im1 h1] st1], web2 as [tm2 om2 [sz2 p2 im2 h2] st2].
  unfold same_but_ContainerPort, SetContainerPort. simpl. intros [= -> -> -> -> -> ->].
  done.
Qed.

Lemma Reconcile_sim scheme req :
  sim eq
    (Reconcile controllerutil.SetControllerReference (cluster.reconciler scheme) req)
    (Reconcile controllerutil.SetControllerReference (cluster.reconciler scheme) req).
Proof.
  unfold Reconcile. cbv zeta.
  eapply sim_bind.
  { unfold Get_Web. apply sim_call. intros. by apply Get_Web_agree. }
  intros [web1 e1] [web2 e2] [Hw He]. simpl in Hw, He. subst e2.
  destruct (same_but_ContainerPort_fields _ _ Hw) as (Hname & Hns & Him & Hhtml).
  rewrite Hname, Hns, Him, Hhtml.
  repeat sim_step.
Qed.

(** Passes on agreeing clusters return the same, make the same calls and
    leave agreeing clusters. *)
Lemma Reconcile_agree scheme req c1 c2 :
  agree c1 c2 →
  outcome (cluster.Reconcile scheme req c1) = outcome (cluster.Reconcile scheme req c2)
  ∧ trace (cluster.Reconcile scheme req c1) = trace (cluster.Reconcile scheme req c2)
  ∧ agree (world (cluster.Reconcile scheme req c1)) (world (cluster.Reconcile scheme req c2)).
Proof.
  intros Hc. unfold cluster.Reconcile, exec.
  generalize (Reconcile_sim scheme req c1 c2 [] Hc). unfold Trace.
  destruct (Reconcile _ _ _ (c1, [])) as [[o1|o1] [c1' t1]],
           (Reconcile _ _ _ (c2, [])) as [[o2|o2] [c2' t2]]; simpl; tauto.
Qed.

(** C10. Put a Web under a key of a cluster, or the same Web with
    another [ContainerPort]: the passes on the two clusters return the
    same outcome, make the same calls with the same answers, hence the
    same writes, and leave the same ConfigMaps and Deployments; and no
    container of a Deployment they send to create declares a port. *)
Theorem Reconcile_ContainerPort_has_no_influence scheme req c key web port :
  let p1 := cluster.Reconcile scheme req (put_Web key web c) in
  let p2 := cluster.Reconcile scheme req (put_Web key (SetContainerPort port web) c) in
  outcome p1 = outcome p2
  ∧ trace p1 = trace p2
  ∧ writes (trace p1) = writes (trace p2)
  ∧ cluster.configMaps (world p1) = cluster.configMaps (world p2)
  ∧ cluster.deployments (world p1) = cluster.deployments (world p2)
  ∧ Forall (λ ev, create_declares_no_port ev = true) (trace p1).
Proof.
  intros p1 p2.
  destruct (Reconcile_agree scheme req _ _ (agree_put_Web key web port c))
    as (Hout & Htrace & Hcm & Hdep & _).
  fold p1 p2 in Hout, Htrace, Hcm, Hdep.
  split_and!; try done.
  - by rewrite Htrace.
  - apply created_Deployment_declares_no_port.
Qed.

(** ** The statements at the Web named site *)

Lemma Reconcile_absent_Web_is_noop_example :
  (client.Get_Web cluster.Client example.key v1alpha1.Web.zero example.empty
     = ((v1alpha1.Web.zero, errors.NewNotFound "site"), example.empty)
   ∧ errors.IsNotFound (errors.NewNotFound "site") = true)
  ∧ outcome (example.pass example.empty) = (ctrl.Result.zero, errors.nil)
  ∧ writes (trace (example.pass example.empty)) = []
  ∧ steps (trace (example.pass example.empty))
    = [EvGet KWeb example.key (errors.NewNotFound "site")]
  ∧ world (example.pass example.empty) = example.empty.
Proof.
  split; [split; reflexivity|].
  apply (Reconcile_absent_Web_is_noop cluster.t controllerutil.SetControllerReference
           (cluster.reconciler example.scheme) example.req example.empty
           v1alpha1.Web.zero (errors.NewNotFound "site") example.empty);
    reflexivity.
Defined.


Lemma Reconcile_conflict_is_swallowed_example :
  (trace (example.pass example.cm_race)
   = take 3 (trace (example.pass example.cm_race))
       ++ example.lost_create :: drop 4 (trace (example.pass example.cm_race))
   ∧ is_conflict example.lost_create = true)
  ∧ outcome (example.pass example.cm_race) = (ctrl.Result.zero, errors.nil)
  ∧ ∃ key err rest,
      steps (drop 4 (trace (example.pass example.cm_race)))
      = EvGet KDeployment key err :: rest.
Proof.
  split; [split; reflexivity|].
  destruct (Reconcile_conflict_is_swallowed cluster.t controllerutil.SetControllerReference
              (cluster.reconciler example.scheme) example.req example.cm_race
              (take 3 (trace (example.pass example.cm_race)))
              example.lost_create
              (drop 4 (trace (example.pass example.cm_race)))
              eq_refl eq_refl)
    as (Hnext & _ & _ & Hok).
  split.
  - apply Hok. vm_compute. repeat constructor.
  - apply Hnext. reflexivity.
Defined.

Lemma Reconcile_create_needs_owner_link_example :
  (∀ owner m scheme m',
     metav1.ObjectMeta.OwnerReferences m = [] →
     controllerutil.SetControllerReference owner m scheme = (m', errors.nil) →
     carries_owner_link owner m' = true)
  ∧ Forall (λ ev, create_carries_owner_link example.site ev = true)
      (trace (example.pass example.fresh))
  ∧ In (EvCreate_ConfigMap example.site_cm errors.nil) (trace (example.pass example.fresh)).
Proof.
  split; [exact controllerutil_SetControllerReference_links|].
  split.
  - apply (proj2 (proj2
      (Reconcile_create_needs_owner_link cluster.t controllerutil.SetControllerReference
         (cluster.reconciler example.scheme) example.req example.fresh
         controllerutil_SetControllerReference_links))
      example.site errors.nil example.fresh).
    reflexivity.
  - vm_compute. do 3 right. left. reflexivity.
Defined.

Lemma Reconcile_Deployment_has_no_replicas_example :
  In (EvCreate_Deployment example.site_deployment errors.nil)
    (trace (example.pass example.fresh))
  ∧ appsv1.DeploymentSpec.Replicas (appsv1.Deployment.Spec example.site_deployment) = None.
Proof.
  assert (H : In (EvCreate_Deployment example.site_deployment errors.nil)
                (trace (example.pass example.fresh))).
  { vm_compute. do 7 right. left. reflexivity. }
  split; [exact H|].
  exact (Reconcile_Deployment_has_no_replicas cluster.t controllerutil.SetControllerReference
           (cluster.reconciler example.scheme) example.req example.fresh
           example.site_deployment errors.nil H).
Defined.

Lemma Reconcile_idempotent_example :
  (cluster.healthy example.converged
   ∧ cluster.webs example.converged !! ctrl.Request.NamespacedName example.req
     = Some example.site
   ∧ cluster.configMaps example.converged !! cm_key example.site
     = Some (cluster.stored_ConfigMap example.site_cm)
   ∧ cluster.deployments example.converged !! dep_key example.site
     = Some (cluster.stored_Deployment example.site_deployment))
  ∧ writes (trace (example.pass example.converged)) = []
  ∧ writes (trace (example.pass (world (example.pass example.converged)))) = []
  ∧ outcome (example.pass example.converged)
    = outcome (example.pass (world (example.pass example.converged)))
  ∧ world (example.pass (world (example.pass example.converged))) = example.converged.
Proof.
  split; [split_and!; reflexivity|].
  destruct (Reconcile_idempotent example.scheme example.req example.converged example.site
              eq_refl eq_refl
              (cluster.stored_ConfigMap example.site_cm)
              (cluster.stored_Deployment example.site_deployment)
              eq_refl eq_refl)
    as ((_ & Hw1 & _) & (_ & Hw2 & Hc2) & Hout).
  split_and!; assumption.
Defined.

Lemma Reconcile_resumes_after_partial_failure_example :
  (cluster.healthy example.halfway
   ∧ cluster.webs example.halfway !! ctrl.Request.NamespacedName example.req
     = Some example.site
   ∧ controllerutil.GVKForObject example.site example.scheme = (example.gvk, errors.nil)
   ∧ cluster.configMaps example.halfway !! cm_key example.site
     = Some (cluster.stored_ConfigMap example.site_cm)
   ∧ cluster.deployments example.halfway !! dep_key example.site = None)
  ∧ ∃ dep,
      outcome (example.pass example.halfway) = (ctrl.Result.zero, errors.nil)
      ∧ writes (trace (example.pass example.halfway)) = [EvCreate_Deployment dep errors.nil]
      ∧ cluster.configMaps (world (example.pass example.halfway))
        = cluster.configMaps example.halfway.
Proof.
  split; [split_and!; reflexivity|].
  destruct (Reconcile_resumes_after_partial_failure
              example.scheme example.req example.halfway example.site example.gvk
              eq_refl eq_refl eq_refl
              (cluster.stored_ConfigMap example.site_cm) eq_refl eq_refl)
    as (dep & Hout & Hw & _ & _ & Hcm & _).
  exists dep. split_and!; assumption.
Defined.

Lemma Reconcile_creates_ConfigMap_before_Deployment_example :
  (cluster.healthy example.fresh
   ∧ cluster.webs example.fresh !! ctrl.Request.NamespacedName example.req
     = Some example.site
   ∧ controllerutil.GVKForObject example.site example.scheme = (example.gvk, errors.nil)
   ∧ cluster.configMaps example.fresh !! cm_key example.site = None
   ∧ cluster.deployments example.fresh !! dep_key example.site = None)
  ∧ ∃ cm dep,
      writes (trace (example.pass example.fresh))
      = [EvCreate_ConfigMap cm errors.nil; EvCreate_Deployment dep errors.nil]
      ∧ corev1.ConfigMap.Name cm = "site-cm"
      ∧ corev1.PodSpec.Volumes
          (corev1.PodTemplateSpec.Spec
             (appsv1.DeploymentSpec.Template (appsv1.Deployment.Spec dep)))
        = [ corev1.Volume.mk "html"
              (corev1.VolumeSource.mk
                 (Some (corev1.ConfigMapVolumeSource.mk
                          (corev1.LocalObjectReference.mk (corev1.ConfigMap.Name cm))))) ].
Proof.
  split; [split_and!; reflexivity|].
  destruct (Reconcile_creates_ConfigMap_before_Deployment
              example.scheme example.req example.fresh example.site example.gvk
              eq_refl eq_refl eq_refl eq_refl eq_refl)
    as (cm & dep & before & between & after & _ & _ & Hw & Hname & Hvol & _).
  exists cm, dep. split_and!; assumption.
Defined.

Lemma Reconcile_site_scenario_example :
  (cluster.healthy example.fresh
   ∧ cluster.webs example.fresh !! ctrl.Request.NamespacedName example.req
     = Some example.site
   ∧ controllerutil.GVKForObject example.site example.scheme = (example.gvk, errors.nil)
   ∧ v1alpha1.Web.Name example.site = "site"
   ∧ v1alpha1.Web.Namespace example.site = "ns"
   ∧ v1alpha1.Web.Spec example.site = v1alpha1.WebSpec.mk 2 80 "nginx:1.25" "<h1>hi</h1>"
   ∧ cluster.configMaps example.fresh !! NamespacedName.mk "ns" "site-cm" = None
   ∧ cluster.deployments example.fresh !! NamespacedName.mk "ns" "sitedeployment" = None)
  ∧ ∃ cm dep,
      outcome (example.pass example.fresh) = (ctrl.Result.zero, errors.nil)
      ∧ writes (trace (example.pass example.fresh))
        = [EvCreate_ConfigMap cm errors.nil; EvCreate_Deployment dep errors.nil]
      ∧ corev1.ConfigMap.Name cm = "site-cm"
      ∧ corev1.ConfigMap.Data cm = {[ "index.html" := "<h1>hi</h1>" ]}
      ∧ appsv1.Deployment.Name dep = "sitedeployment".
Proof.
  split; [split_and!; reflexivity|].
  destruct (Reconcile_site_scenario
              example.scheme example.req example.fresh example.site example.gvk
              eq_refl eq_refl eq_refl eq_refl eq_refl eq_refl eq_refl eq_refl)
    as (cm & dep & Hout & Hw & _ & _ & Hcn & _ & Hdata & Hdn & _).
  exists cm, dep. split_and!; assumption.
Defined.

(** * More of the reconciler *)

(** ** Proof tools *)

(** From what a path knows of [err != nil], which errors are nil. *)
Ltac settle_errors :=
  repeat match goal with
  | H : errors.notnil ?e = false |- _ => is_var e; destruct e; [discriminate H|clear H]
  | H : errors.notnil ?e = true |- _ => is_var e; destruct e; [clear H|discriminate H]
  | H : errors.notnil (Some _) = false |- _ => discriminate H
  | H : errors.notnil None = true |- _ => discriminate H
  | H : errors.notnil (Some _) = true |- _ => clear H
  | H : errors.notnil None = false |- _ => clear H
  end.

Ltac nil_tests :=
  try change (errors.IsNotFound None) with false in *;
  try change (errors.IsAlreadyExists None) with false in *.

Ltac rewrite_tests :=
  repeat match goal with
  | H : errors.IsNotFound ?e = _ |- context [errors.IsNotFound ?e] => rewrite H
  | H : errors.IsAlreadyExists ?e = _ |- context [errors.IsAlreadyExists ?e] => rewrite H
  | H : errors.IsNotFound ?e = _, H' : context [errors.IsNotFound ?e] |- _ => rewrite H in H'
  | H : errors.IsAlreadyExists ?e = _, H' : context [errors.IsAlreadyExists ?e] |- _ =>
      rewrite H in H'
  end.

(** What the answers on a path say about its errors. *)
Ltac read_path := subst; bool_hyps; settle_errors; nil_tests; rewrite_tests.

(** Case analysis on the answer of the next call of the client. *)
Ltac case_call :=
  match goal with
  | |- context [client.Get_Web ?c ?k ?o ?w] =>
      destruct (client.Get_Web c k o w) as [[? ?] ?] eqn:?
  | |- context [client.Get_ConfigMap ?c ?k ?o ?w] =>
      destruct (client.Get_ConfigMap c k o w) as [[? ?] ?] eqn:?
  | |- context [client.Get_Deployment ?c ?k ?o ?w] =>
      destruct (client.Get_Deployment c k o w) as [[? ?] ?] eqn:?
  | |- context [client.Create_ConfigMap ?c ?o ?w] =>
      destruct (client.Create_ConfigMap c o w) as [[? ?] ?] eqn:?
  | |- context [client.Create_Deployment ?c ?o ?w] =>
      destruct (client.Create_Deployment c o w) as [[? ?] ?] eqn:?
  end; simpl.

Ltac explore := repeat first [case_call | case_step].

(** ** Any client: the shape of a pass *)

Section AnyClientMore.
Variable World : Type.
Variable SetControllerReference : ctrl.SetControllerReference_t.
Variable r : WebReconciler World.
Variable req : ctrl.Request.t.
Variable w : World.

#[local] Abbreviation pass := (exec (Reconcile SetControllerReference r req) w).

(** X1. Whatever the client answers, the result a pass returns is the
    empty [ctrl.Result]: it never asks to be run again, at once or after
    a delay. *)
Theorem Reconcile_never_requeues : (outcome pass).1 = ctrl.Result.zero.
Proof. unfold_pass. repeat case_step. all: reflexivity. Qed.

(** X2. The steps of a pass, read as kinds of call, are taken in order
    from the list fetch Web, fetch ConfigMap, set its owner, create it,
    fetch Deployment, set its owner, create it: each at most once, never
    out of this order. *)
Theorem Reconcile_steps_in_program_order :
  omap step_tag (trace pass) `sublist_of` program_order.
Proof.
  unfold_pass. repeat case_step.
  all: unfold program_order.
  all: repeat first [ apply sublist_nil | apply sublist_skip | apply sublist_cons ].
Qed.




(** X6. In every Deployment a pass sends to create, the selector is the
    label set of the pod template, and every volume mount of every
    container names a volume of the pod. *)
Theorem Reconcile_Deployment_is_wired dep err :
  In (EvCreate_Deployment dep err) (trace pass) →
  appsv1.DeploymentSpec.Selector (appsv1.Deployment.Spec dep)
  = Some (metav1.LabelSelector.mk
            (metav1.ObjectMeta.Labels
               (corev1.PodTemplateSpec.ObjectMeta
                  (appsv1.DeploymentSpec.Template (appsv1.Deployment.Spec dep)))))
  ∧ Forall (λ ctr,
      Forall (λ vm,
        corev1.VolumeMount.Name vm
        ∈ corev1.Volume.Name
            <$> corev1.PodSpec.Volumes
                  (corev1.PodTemplateSpec.Spec
                     (appsv1.DeploymentSpec.Template (appsv1.Deployment.Spec dep))))
        (corev1.Container.VolumeMounts ctr))
      (corev1.PodSpec.Containers
         (corev1.PodTemplateSpec.Spec
            (appsv1.DeploymentSpec.Template (appsv1.Deployment.Spec dep)))).
Proof.
  unfold_pass. explore.
  all: intros Hin; simpl in Hin.
  all: repeat (destruct Hin as [Hin|Hin]; [try discriminate Hin|]); try (exfalso; exact Hin).
  all: injection Hin as <- _; simpl; split; [reflexivity|repeat constructor].
Qed.

(** X7. A pass returns an error exactly when it logged one, and a logged
    error is the last thing the pass does. *)
Theorem Reconcile_logs_the_error_it_returns :
  errors.notnil (outcome pass).2 = existsb is_error_log (trace pass)
  ∧ (∀ before ev after,
       trace pass = before ++ ev :: after → is_error_log ev = true → after = []).
Proof.
  split.
  - unfold_pass. explore.
    all: read_path; simpl; rewrite_tests; done.
  - intros before ev after. unfold_pass. explore.
    all: intros Htr Hlog.
    all: split_trace Htr before.
    all: simpl in *; try discriminate; done.
Qed.

(** X8. A pass fetches the Web under the key of the request, and the
    dependents in the namespace and under the names derived from the Web
    it fetched, not from the request. *)
Theorem Reconcile_looks_up_derived_keys web err w' :
  client.Get_Web (Client r) (ctrl.Request.NamespacedName req) v1alpha1.Web.zero w
    = ((web, err), w') →
  Forall (uses_key_of req web) (trace pass).
Proof.
  intros Hget. unfold_pass. rewrite Hget. simpl. explore.
  all: repeat constructor.
Qed.
End AnyClientMore.

(** ** A healthy cluster: what a pass adds *)

Lemma cluster_eta c :
  cluster.mk (cluster.webs c) (cluster.configMaps c) (cluster.deployments c) (cluster.faults c)
  = c.
Proof. by destruct c. Qed.

Section HealthyClusterMore.
Variable scheme : runtime.Scheme.t.
Variable req : ctrl.Request.t.
Variable c : cluster.t.
Variable web : v1alpha1.Web.t.
Variable gvk : schema.GroupVersionKind.t.

Hypothesis c_healthy : cluster.healthy c.
Hypothesis c_web : cluster.webs c !! ctrl.Request.NamespacedName req = Some web.
Hypothesis web_kind : controllerutil.GVKForObject web scheme = (gvk, errors.nil).

(** The pass on a healthy cluster, in one equation. *)
Lemma Reconcile_healthy_pass :
  ∃ t,
    cluster.Reconcile scheme req c
    = {| outcome := (ctrl.Result.zero, errors.nil);
         world := reconciled gvk web c;
         trace := t |}
    ∧ writes t = missing_creates gvk web c.
Proof.
  unfold reconciled, missing_creates, ConfigMap_name_in_use, ensure.
  unfold cluster.Reconcile. unfold_pass.
  rewrite Get_healthy by done. unfold cluster.lookup_or_NotFound. rewrite c_web. simpl.
  rewrite Get_healthy by done. unfold cluster.lookup_or_NotFound.
  unfold cm_key, dep_key.
  destruct (cluster.configMaps c !! _) as [cm|] eqn:Hcm; simpl.
  - rewrite Get_healthy by done. unfold cluster.lookup_or_NotFound.
    destruct (cluster.deployments c !! _) as [dep|] eqn:Hdep; simpl.
    + eexists. split; [rewrite cluster_eta; reflexivity|reflexivity].
    + rewrite (SetControllerReference_fresh _ _ _ gvk) by done. simpl.
      rewrite Create_Deployment_healthy by done. simpl.
      eexists. split; reflexivity.
  - rewrite (SetControllerReference_fresh _ _ _ gvk) by done. simpl.
    rewrite Create_ConfigMap_healthy by done. simpl.
    rewrite Get_healthy by done. unfold cluster.lookup_or_NotFound. simpl.
    destruct (cluster.deployments c !! _) as [dep|] eqn:Hdep; simpl.
    + eexists. split; reflexivity.
    + rewrite (SetControllerReference_fresh _ _ _ gvk) by done. simpl.
      rewrite Create_Deployment_healthy by done. simpl.
      eexists. split; reflexivity.
Qed.

(** X9. On a healthy cluster that holds the Web, with the Web's kind in
    the scheme, a pass succeeds; its writes are the creates of the
    dependents the cluster lacks, and it leaves the cluster with these
    added and nothing else changed, whichever of the two were there. *)
Theorem Reconcile_adds_what_is_missing :
  outcome (cluster.Reconcile scheme req c) = (ctrl.Result.zero, errors.nil)
  ∧ world (cluster.Reconcile scheme req c) = reconciled gvk web c
  ∧ writes (trace (cluster.Reconcile scheme req c)) = missing_creates gvk web c.
Proof.
  destruct Reconcile_healthy_pass as (t & -> & Hw). simpl. done.
Qed.
End HealthyClusterMore.

Lemma ensure_lookup {A} key (obj : A) objs : is_Some (ensure key obj objs !! key).
Proof.
  unfold ensure. destruct (objs !! key) eqn:H; [rewrite H; by eexists|].
  rewrite lookup_insert_eq. by eexists.
Qed.

Lemma ensure_lookup_ne {A} key key' (obj : A) objs :
  key ≠ key' → ensure key obj objs !! key' = objs !! key'.
Proof.
  intros Hne. unfold ensure. destruct (objs !! key); [done|].
  by rewrite lookup_insert_ne.
Qed.

Lemma ensure_present {A} key (obj : A) objs :
  is_Some (objs !! key) → ensure key obj objs = objs.
Proof. intros [x Hx]. unfold ensure. by rewrite Hx. Qed.

Lemma ensure_commute {A} k1 k2 (v1 v2 : A) objs :
  k1 ≠ k2 → ensure k1 v1 (ensure k2 v2 objs) = ensure k2 v2 (ensure k1 v1 objs).
Proof.
  intros Hne. unfold ensure at 1 3.
  rewrite !ensure_lookup_ne by done.
  unfold ensure.
  destruct (objs !! k1), (objs !! k2); try done.
  by apply insert_insert_ne.
Qed.

Lemma reconciled_fixed gvk web c : reconciled gvk web (reconciled gvk web c) = reconciled gvk web c.
Proof.
  unfold reconciled. simpl. f_equal; apply ensure_present, ensure_lookup.
Qed.

Lemma missing_creates_reconciled gvk web c : missing_creates gvk web (reconciled gvk web c) = [].
Proof.
  unfold missing_creates, reconciled. simpl.
  destruct (ensure_lookup (cm_key web)
              (cluster.stored_ConfigMap (desired_ConfigMap gvk web)) (cluster.configMaps c))
    as [? ->].
  destruct (ensure_lookup (dep_key web)
              (cluster.stored_Deployment
                 (desired_Deployment gvk web (ConfigMap_name_in_use web c)))
              (cluster.deployments c))
    as [? ->].
  done.
Qed.

(** X10. One pass is enough: after a pass on such a cluster both
    dependents are there, and the next pass succeeds, writes nothing and
    leaves the cluster as it found it. *)
Theorem Reconcile_converges_in_one_pass scheme req c web gvk :
  cluster.healthy c →
  cluster.webs c !! ctrl.Request.NamespacedName req = Some web →
  controllerutil.GVKForObject web scheme = (gvk, errors.nil) →
  let p1 := cluster.Reconcile scheme req c in
  let p2 := cluster.Reconcile scheme req (world p1) in
  is_Some (cluster.configMaps (world p1) !! cm_key web)
  ∧ is_Some (cluster.deployments (world p1) !! dep_key web)
  ∧ outcome p2 = (ctrl.Result.zero, errors.nil)
  ∧ writes (trace p2) = []
  ∧ world p2 = world p1.
Proof.
  intros Hh Hweb Hgvk p1 p2. subst p2 p1.
  destruct (Reconcile_healthy_pass scheme req c web gvk Hh Hweb Hgvk) as (t1 & -> & _).
  simpl.
  destruct (Reconcile_healthy_pass scheme req (reconciled gvk web c) web gvk)
    as (t2 & -> & Hw2); [done..|].
  simpl. rewrite Hw2, missing_creates_reconciled, reconciled_fixed.
  split_and!; try done; apply ensure_lookup.
Qed.

(** X11. When the ConfigMap is already in the cluster, the Deployment a
    pass creates takes as its volume source the name the fetched ConfigMap
    carries. *)
Theorem Reconcile_mounts_the_ConfigMap_it_found scheme req c web gvk cm :
  cluster.healthy c →
  cluster.webs c !! ctrl.Request.NamespacedName req = Some web →
  controllerutil.GVKForObject web scheme = (gvk, errors.nil) →
  cluster.configMaps c !! cm_key web = Some cm →
  cluster.deployments c !! dep_key web = None →
  ∃ dep,
    writes (trace (cluster.Reconcile scheme req c)) = [EvCreate_Deployment dep errors.nil]
    ∧ corev1.PodSpec.Volumes
        (corev1.PodTemplateSpec.Spec
           (appsv1.DeploymentSpec.Template (appsv1.Deployment.Spec dep)))
      = [ corev1.Volume.mk "html"
            (corev1.VolumeSource.mk
               (Some (corev1.ConfigMapVolumeSource.mk
                        (corev1.LocalObjectReference.mk (corev1.ConfigMap.Name cm))))) ].
Proof.
  intros Hh Hweb Hgvk Hcm Hdep.
  destruct (Reconcile_healthy_pass scheme req c web gvk Hh Hweb Hgvk) as (t & -> & Hw).
  simpl. rewrite Hw. unfold missing_creates, ConfigMap_name_in_use. rewrite Hcm, Hdep.
  eexists. split; reflexivity.
Qed.

Lemma string_length_append s t : String.length (s +:+ t) = String.length s + String.length t.
Proof. induction s; simpl; [done|]. by rewrite IHs. Qed.

Lemma string_append_cancel_r s1 s2 t : s1 +:+ t = s2 +:+ t → s1 = s2.
Proof.
  revert s2. induction s1 as [|a s1 IH]; intros [|b s2] H; simpl in H.
  - done.
  - apply (f_equal String.length) in H. rewrite ?string_length_append in H. simpl in H.
    rewrite ?string_length_append in H. lia.
  - apply (f_equal String.length) in H. rewrite ?string_length_append in H. simpl in H.
    rewrite ?string_length_append in H. lia.
  - injection H as -> H. f_equal. by apply IH.
Qed.

Lemma cm_key_inj web1 web2 :
  cm_key web1 = cm_key web2 →
  v1alpha1.Web.Namespace web1 = v1alpha1.Web.Namespace web2
  ∧ v1alpha1.Web.Name web1 = v1alpha1.Web.Name web2.
Proof.
  unfold cm_key. intros [= Hns Hname]. split; [done|].
  by eapply string_append_cancel_r.
Qed.

Lemma dep_key_inj web1 web2 :
  dep_key web1 = dep_key web2 →
  v1alpha1.Web.Namespace web1 = v1alpha1.Web.Namespace web2
  ∧ v1alpha1.Web.Name web1 = v1alpha1.Web.Name web2.
Proof.
  unfold dep_key. intros [= Hns Hname]. split; [done|].
  by eapply string_append_cancel_r.
Qed.

(** X12. Two Webs whose ConfigMaps, or whose Deployments, are kept under
    the same key have the same namespace and the same name. *)
Theorem dependents_of_distinct_Webs_have_distinct_keys web1 web2 :
  cm_key web1 = cm_key web2 ∨ dep_key web1 = dep_key web2 →
  v1alpha1.Web.Namespace web1 = v1alpha1.Web.Namespace web2
  ∧ v1alpha1.Web.Name web1 = v1alpha1.Web.Name web2.
Proof.
  intros [H|H]; [by apply cm_key_inj|by apply dep_key_inj].
Qed.

(** X13. Passes for two Webs of different namespace or name do not
    interfere: on a healthy cluster, running them in either order leaves
    the same cluster. *)
Theorem Reconcile_of_distinct_Webs_commute scheme c reqA webA gvkA reqB webB gvkB :
  cluster.healthy c →
  cluster.webs c !! ctrl.Request.NamespacedName reqA = Some webA →
  cluster.webs c !! ctrl.Request.NamespacedName reqB = Some webB →
  controllerutil.GVKForObject webA scheme = (gvkA, errors.nil) →
  controllerutil.GVKForObject webB scheme = (gvkB, errors.nil) →
  ¬ (v1alpha1.Web.Namespace webA = v1alpha1.Web.Namespace webB
     ∧ v1alpha1.Web.Name webA = v1alpha1.Web.Name webB) →
  world (cluster.Reconcile scheme reqB (world (cluster.Reconcile scheme reqA c)))
  = world (cluster.Reconcile scheme reqA (world (cluster.Reconcile scheme reqB c))).
Proof.
  intros Hh HA HB HgA HgB Hne.
  assert (Hcm : cm_key webA ≠ cm_key webB).
  { intros H. apply Hne. by apply cm_key_inj. }
  assert (Hdep : dep_key webA ≠ dep_key webB).
  { intros H. apply Hne. by apply dep_key_inj. }
  destruct (Reconcile_healthy_pass scheme reqA c webA gvkA Hh HA HgA) as (tA & -> & _).
  destruct (Reconcile_healthy_pass scheme reqB c webB gvkB Hh HB HgB) as (tB & -> & _).
  simpl.
  destruct (Reconcile_healthy_pass scheme reqB (reconciled gvkA webA c) webB gvkB)
    as (tAB & -> & _); [done..|].
  destruct (Reconcile_healthy_pass scheme reqA (reconciled gvkB webB c) webA gvkA)
    as (tBA & -> & _); [done..|].
  simpl. unfold reconciled, ConfigMap_name_in_use. simpl.
  rewrite !ensure_lookup_ne by done.
  f_equal; by apply ensure_commute.
Qed.

(** ** Any failures: a pass only adds *)

Lemma grows_refl c : grows c c.
Proof. by unfold grows. Qed.

Lemma grows_trans c1 c2 c3 : grows c1 c2 → grows c2 c3 → grows c1 c3.
Proof.
  intros (Hw1 & Hc1 & Hd1) (Hw2 & Hc2 & Hd2). unfold grows.
  split_and!; [congruence|by etrans..].
Qed.

Lemma keeps_ret {A} (a : A) : keeps (ret a).
Proof. intros c t. apply grows_refl. Qed.

Lemma keeps_return {A} out : keeps (@return_ cluster.t A out).
Proof. intros c t. apply grows_refl. Qed.

Lemma keeps_emit ev : keeps (emit ev).
Proof. intros c t. apply grows_refl. Qed.

Lemma keeps_bind {A B} (m : M cluster.t A) (f : A → M cluster.t B) :
  keeps m → (∀ a, keeps (f a)) → keeps (bind m f).
Proof.
  intros Hm Hf c t. unfold bind. specialize (Hm c t).
  destruct (m (c, t)) as [[out|a] [c' t']]; simpl in *; [done|].
  eapply grows_trans; [exact Hm|]. apply Hf.
Qed.

Lemma keeps_call {A} (op : cluster.t → (A * error) * cluster.t) ev :
  (∀ c, grows c (op c).2) → keeps (call op ev).
Proof.
  intros Hop c t. unfold call. simpl. specialize (Hop c).
  by destruct (op c) as [res c'].
Qed.

Lemma next_fault_grows c : grows c (cluster.next_fault c).2.
Proof. unfold cluster.next_fault. by destruct (cluster.faults c). Qed.

Lemma Get_grows {A} (objs : cluster.t → gmap NamespacedName.t A) key obj c :
  grows c (cluster.Get objs key obj c).2.
Proof.
  unfold cluster.Get. pose proof (next_fault_grows c) as H.
  destruct (cluster.next_fault c) as [f c']. by destruct (errors.notnil f).
Qed.

Lemma Create_ConfigMap_grows obj c : grows c (cluster.Create_ConfigMap obj c).2.
Proof.
  unfold cluster.Create_ConfigMap. pose proof (next_fault_grows c) as H.
  destruct (cluster.next_fault c) as [f c']. destruct (errors.notnil f); [done|].
  simpl in *. destruct (cluster.configMaps c' !! _) eqn:Hnone; [done|].
  simpl. eapply grows_trans; [exact H|].
  unfold grows. simpl. split_and!; try done. by apply insert_subseteq.
Qed.

Lemma Create_Deployment_grows obj c : grows c (cluster.Create_Deployment obj c).2.
Proof.
  unfold cluster.Create_Deployment. pose proof (next_fault_grows c) as H.
  destruct (cluster.next_fault c) as [f c']. destruct (errors.notnil f); [done|].
  simpl in *. destruct (cluster.deployments c' !! _) eqn:Hnone; [done|].
  simpl. eapply grows_trans; [exact H|].
  unfold grows. simpl. split_and!; try done. by apply insert_subseteq.
Qed.

Ltac keeps_intro :=
  let a := fresh "a" in
  intros a;
  lazymatch type of a with
  | (_ * _)%type => destruct a
  | _ => idtac
  end;
  cbv beta iota.

Ltac keeps_step :=
  lazymatch goal with
  | |- keeps (bind _ _) => apply keeps_bind; [|keeps_intro]
  | |- keeps (if ?b then _ else _) => destruct b
  | |- keeps (ret _) => apply keeps_ret
  | |- keeps (return_ _) => apply keeps_return
  | |- keeps (log_Info _) => apply keeps_emit
  | |- keeps (log_Error _ _) => apply keeps_emit
  | |- keeps (SetControllerReference_ConfigMap _ _ _ _) =>
      apply keeps_call; intros; apply grows_refl
  | |- keeps (SetControllerReference_Deployment _ _ _ _) =>
      apply keeps_call; intros; apply grows_refl
  | |- keeps (Get_Web _ _ _) => apply keeps_call; intros; apply Get_grows
  | |- keeps (Get_ConfigMap _ _ _) => apply keeps_call; intros; apply Get_grows
  | |- keeps (Get_Deployment _ _ _) => apply keeps_call; intros; apply Get_grows
  | |- keeps (Create_ConfigMap _ _) => apply keeps_call; intros; apply Create_ConfigMap_grows
  | |- keeps (Create_Deployment _ _) => apply keeps_call; intros; apply Create_Deployment_grows
  end.

(** [Reconcile] is made of calls that only add. *)
Lemma Reconcile_keeps SetControllerReference scheme req :
  keeps (Reconcile SetControllerReference (cluster.reconciler scheme) req).
Proof. unfold Reconcile. cbv zeta. repeat keeps_step. Qed.

(** X14. Whatever fails and whatever [SetControllerReference] does, a
    pass leaves the Webs of the cluster as they are and every ConfigMap
    and Deployment that was there in place and unchanged. *)
Theorem Reconcile_never_deletes_or_overwrites SetControllerReference scheme req c :
  let p := exec (Reconcile SetControllerReference (cluster.reconciler scheme) req) c in
  cluster.webs (world p) = cluster.webs c
  ∧ cluster.configMaps c ⊆ cluster.configMaps (world p)
  ∧ cluster.deployments c ⊆ cluster.deployments (world p).
Proof.
  simpl. unfold exec. generalize (Reconcile_keeps SetControllerReference scheme req c []).
  unfold Trace.
  destruct (Reconcile _ _ _ (c, [])) as [[o|o] [c' t]]; simpl; done.
Qed.

(** ** The watches of SetupWithManager *)



(** ** The further statements at the Webs site and blog *)



Lemma Reconcile_Deployment_is_wired_example :
  In (EvCreate_Deployment example.site_deployment errors.nil)
    (trace (example.pass example.fresh))
  ∧ appsv1.DeploymentSpec.Selector (appsv1.Deployment.Spec example.site_deployment)
    = Some (metav1.LabelSelector.mk {[ "app" := "site" ]}).
Proof.
  assert (H : In (EvCreate_Deployment example.site_deployment errors.nil)
                (trace (example.pass example.fresh))).
  { vm_compute. do 7 right. left. reflexivity. }
  split; [exact H|].
  exact (proj1 (Reconcile_Deployment_is_wired cluster.t controllerutil.SetControllerReference
                  (cluster.reconciler example.scheme) example.req example.fresh
                  example.site_deployment errors.nil H)).
Defined.

Lemma Reconcile_looks_up_derived_keys_example :
  client.Get_Web cluster.Client example.key v1alpha1.Web.zero example.fresh
    = ((example.site, errors.nil), example.fresh)
  ∧ Forall (uses_key_of example.req example.site) (trace (example.pass example.fresh)).
Proof.
  split; [reflexivity|].
  apply (Reconcile_looks_up_derived_keys cluster.t controllerutil.SetControllerReference
           (cluster.reconciler example.scheme) example.req example.fresh
           example.site errors.nil example.fresh).
  reflexivity.
Defined.

Lemma Reconcile_adds_what_is_missing_example :
  (cluster.healthy example_blog.cm_lost
   ∧ cluster.webs example_blog.cm_lost !! ctrl.Request.NamespacedName example.req
     = Some example.site
   ∧ controllerutil.GVKForObject example.site example.scheme = (example.gvk, errors.nil))
  ∧ outcome (example.pass example_blog.cm_lost) = (ctrl.Result.zero, errors.nil)
  ∧ world (example.pass example_blog.cm_lost)
    = reconciled example.gvk example.site example_blog.cm_lost
  ∧ writes (trace (example.pass example_blog.cm_lost))
    = [EvCreate_ConfigMap example.site_cm errors.nil].
Proof.
  split; [split_and!; reflexivity|].
  exact (Reconcile_adds_what_is_missing example.scheme example.req example_blog.cm_lost
           example.site example.gvk eq_refl eq_refl eq_refl).
Defined.

Lemma Reconcile_converges_in_one_pass_example :
  (cluster.healthy example.fresh
   ∧ cluster.webs example.fresh !! ctrl.Request.NamespacedName example.req
     = Some example.site
   ∧ controllerutil.GVKForObject example.site example.scheme = (example.gvk, errors.nil))
  ∧ writes (trace (example.pass (world (example.pass example.fresh)))) = []
  ∧ world (example.pass (world (example.pass example.fresh)))
    = world (example.pass example.fresh).
Proof.
  split; [split_and!; reflexivity|].
  destruct (Reconcile_converges_in_one_pass example.scheme example.req example.fresh
              example.site example.gvk eq_refl eq_refl eq_refl)
    as (_ & _ & _ & Hw & Hc).
  split; assumption.
Defined.

Lemma Reconcile_mounts_the_ConfigMap_it_found_example :
  (cluster.healthy example.halfway
   ∧ cluster.webs example.halfway !! ctrl.Request.NamespacedName example.req
     = Some example.site
   ∧ controllerutil.GVKForObject example.site example.scheme = (example.gvk, errors.nil)
   ∧ cluster.configMaps example.halfway !! cm_key example.site
     = Some (cluster.stored_ConfigMap example.site_cm)
   ∧ cluster.deployments example.halfway !! dep_key example.site = None)
  ∧ ∃ dep,
      writes (trace (example.pass example.halfway)) = [EvCreate_Deployment dep errors.nil]
      ∧ corev1.PodSpec.Volumes
          (corev1.PodTemplateSpec.Spec
             (appsv1.DeploymentSpec.Template (appsv1.Deployment.Spec dep)))
        = [ corev1.Volume.mk "html"
              (corev1.VolumeSource.mk
                 (Some (corev1.ConfigMapVolumeSource.mk
                          (corev1.LocalObjectReference.mk "site-cm")))) ].
Proof.
  split; [split_and!; reflexivity|].
  exact (Reconcile_mounts_the_ConfigMap_it_found example.scheme example.req example.halfway
           example.site example.gvk (cluster.stored_ConfigMap example.site_cm)
           eq_refl eq_refl eq_refl eq_refl eq_refl).
Defined.

Lemma dependents_of_distinct_Webs_have_distinct_keys_example :
  (cm_key example.site = cm_key (SetContainerPort 8080 example.site)
   ∨ dep_key example.site = dep_key (SetContainerPort 8080 example.site))
  ∧ v1alpha1.Web.Namespace example.site
    = v1alpha1.Web.Namespace (SetContainerPort 8080 example.site)
  ∧ v1alpha1.Web.Name example.site = v1alpha1.Web.Name (SetContainerPort 8080 example.site).
Proof.
  split; [left; reflexivity|].
  apply (dependents_of_distinct_Webs_have_distinct_keys
           example.site (SetContainerPort 8080 example.site)).
  left. reflexivity.
Defined.

Lemma Reconcile_of_distinct_Webs_commute_example :
  (cluster.healthy example_blog.two_webs
   ∧ cluster.webs example_blog.two_webs !! ctrl.Request.NamespacedName example.req
     = Some example.site
   ∧ cluster.webs example_blog.two_webs !! ctrl.Request.NamespacedName example_blog.req
     = Some example_blog.blog
   ∧ ¬ (v1alpha1.Web.Namespace example.site = v1alpha1.Web.Namespace example_blog.blog
        ∧ v1alpha1.Web.Name example.site = v1alpha1.Web.Name example_blog.blog))
  ∧ world (cluster.Reconcile example.scheme example_blog.req
             (world (cluster.Reconcile example.scheme example.req example_blog.two_webs)))
    = world (cluster.Reconcile example.scheme example.req
               (world (cluster.Reconcile example.scheme example_blog.req
                         example_blog.two_webs))).
Proof.
  assert (Hne : ¬ (v1alpha1.Web.Namespace example.site
                   = v1alpha1.Web.Namespace example_blog.blog
                   ∧ v1alpha1.Web.Name example.site = v1alpha1.Web.Name example_blog.blog)).
  { intros [_ H]. discriminate H. }
  split; [split_and!; [reflexivity..|exact Hne]|].
  exact (Reconcile_of_distinct_Webs_commute example.scheme example_blog.two_webs
           example.req example.site example.gvk
           example_blog.req example_blog.blog example.gvk
           eq_refl eq_refl eq_refl eq_refl eq_refl Hne).
Defined.

